(** * PhishGuard: heuristic scoring, classifier adapter and risk fusion

    A shallow embedding of [api/genai_app.py]: the feature extractor
    ([is_ip], [get_url_features]), the heuristic scorer ([ml_score_calc]),
    the classifier adapter ([genai_analysis]), the [/scan] route
    ([scan]), the start-up configuration with the [/health] route
    ([health]) and the [/] route ([serve_ui]), followed by the properties
    of these functions.

    Conventions.
    - A Python [str] is a Rocq [string].  URLs reach the code through
      pydantic's [HttpUrl], whose text is ASCII, so [len], [count],
      [startswith] and the character class [\d] read the same characters
      here as in Python.  A classifier reply is carried as its UTF-8 bytes;
      the braces the adapter looks for are ASCII and keep their places.
      The text of [index.html] is carried in the same way (the quotes, the
      backslash and [n] that [serve_ui] looks for are ASCII); the values
      of the environment variables are taken to be ASCII, where [strip]
      removes the characters 9 to 13 and 28 to 32.
    - A Python [float] is a binary64 primitive float; [int] is [Z].
    - A call that may raise returns a [Result]. *)

From Stdlib Require Import ZArith Floats String Ascii List Bool Lia DecimalString.
Import ListNotations.
Set Warnings "-inexact-float".
Local Open Scope string_scope.
Local Open Scope list_scope.

(** ** Exceptions and results *)

Inductive ExcClass : Type :=
| JSONDecodeError
| ValueError
| TypeError
| AttributeError
| OverflowError
| ValidationError
| ServiceError.

(** A caught exception: its class and the text [str(e)] yields. *)
Record Exn : Type := mkExn { exc_class : ExcClass; exc_text : string }.

Inductive Result (E A : Type) : Type :=
| Ok (a : A)
| Raise (e : E).
Arguments Ok {E A} a.
Arguments Raise {E A} e.

Definition bind {E A B : Type} (r : Result E A) (k : A -> Result E B) : Result E B :=
  match r with
  | Ok a => k a
  | Raise e => Raise e
  end.

Notation "x <- c ;; k" := (bind c (fun x => k))
  (at level 61, c at next level, right associativity).

(** ** Python floats

    [float(int)], [float(str)] on ASCII text and [round(x, 2)], each
    rounding the exact rational result to the nearest binary64 value, ties
    to even, as CPython does. *)
Module PyFloat.

(** The binary64 value nearest to [p / q] ([0 <= p], [0 < q]), with the
    sign [neg]; infinite when the quotient is out of range. *)
Definition ratio_to_float (neg : bool) (p q : Z) : float :=
  if (p =? 0)%Z then (if neg then neg_zero else PrimFloat.zero) else
  let num := (p * 2 ^ 1076)%Z in
  let m := (num / q)%Z in
  let r := (num mod q)%Z in
  let loc := if (r =? 0)%Z then loc_Exact else loc_Inexact (2 * r ?= q)%Z in
  SF2Prim (binary_round_aux prec emax neg m (-1076)%Z loc).

(** [digits * 10 ^ exp10] as a float. *)
Definition decimal_to_float (neg : bool) (digits exp10 : Z) : float :=
  if (0 <=? exp10)%Z then ratio_to_float neg (digits * 10 ^ exp10)%Z 1%Z
  else ratio_to_float neg digits (10 ^ (- exp10))%Z.

(** [float(n)] for an [int]: [None] stands for [OverflowError]. *)
Definition of_int (n : Z) : option float :=
  let x := ratio_to_float (n <? 0)%Z (Z.abs n) 1%Z in
  if is_infinity x then None else Some x.

Definition round_half_even (num den : Z) : Z :=
  let q := (num / den)%Z in
  match (2 * (num mod den) ?= den)%Z with
  | Lt => q
  | Gt => (q + 1)%Z
  | Eq => if Z.even q then q else (q + 1)%Z
  end.

(** [round(x, 2)]: the decimal with two fractional digits nearest to the
    exact value of [x] (ties to even), converted back to the nearest float;
    zeros, infinities and NaN round to themselves. *)
Definition round2 (x : float) : float :=
  match Prim2SF x with
  | S754_finite s m e =>
      let n := if (0 <=? e)%Z then (Zpos m * 2 ^ e * 100)%Z
               else round_half_even (Zpos m * 100)%Z (2 ^ (- e))%Z in
      ratio_to_float s n 100%Z
  | _ => x
  end.

(** *** [float(str)] *)

Definition is_digit (c : ascii) : bool :=
  (48 <=? nat_of_ascii c)%nat && (nat_of_ascii c <=? 57)%nat.

Definition digit_val (c : ascii) : Z := (Z.of_nat (nat_of_ascii c) - 48)%Z.

(** The whitespace [float] strips, within ASCII. *)
Definition is_space (c : ascii) : bool :=
  let n := nat_of_ascii c in
  ((9 <=? n)%nat && (n <=? 13)%nat) || ((28 <=? n)%nat && (n <=? 32)%nat).

Definition lower (c : ascii) : ascii :=
  let n := nat_of_ascii c in
  if ((65 <=? n)%nat && (n <=? 90)%nat) then ascii_of_nat (n + 32) else c.

Fixpoint lstrip (s : list ascii) : list ascii :=
  match s with
  | c :: s' => if is_space c then lstrip s' else s
  | [] => []
  end.

Definition strip (s : list ascii) : list ascii :=
  rev (lstrip (rev (lstrip s))).

(** Underscores may only stand between two digits; they are dropped.
    [prev] is the character before [s], if any. *)
Fixpoint drop_underscores (prev : option ascii) (s : list ascii) : option (list ascii) :=
  match s with
  | [] => match prev with
          | Some "_"%char => None
          | _ => Some []
          end
  | c :: s' =>
      if Ascii.eqb c "_" then
        match prev with
        | Some p => if is_digit p then drop_underscores (Some c) s' else None
        | None => None
        end
      else
        match prev with
        | Some "_"%char => if is_digit c then option_map (cons c) (drop_underscores (Some c) s') else None
        | _ => option_map (cons c) (drop_underscores (Some c) s')
        end
  end.

(** The leading digits of [s]: their value continuing [acc], how many
    there are, and what follows them. *)
Fixpoint take_digits (acc : Z) (s : list ascii) : Z * nat * list ascii :=
  match s with
  | c :: s' =>
      if is_digit c then
        let '(v, n, rest) := take_digits (acc * 10 + digit_val c)%Z s' in (v, S n, rest)
      else (acc, 0, s)
  | [] => (acc, 0, [])
  end.

(** [[eE][+-]?digits] to the end of the text, or nothing at all. *)
Definition exponent (s : list ascii) : option Z :=
  match s with
  | [] => Some 0%Z
  | c :: s1 =>
      if Ascii.eqb (lower c) "e" then
        let '(neg, s2) := match s1 with
                          | "-"%char :: t => (true, t)
                          | "+"%char :: t => (false, t)
                          | _ => (false, s1)
                          end in
        match take_digits 0 s2 with
        | (_, O, _) => None
        | (v, _, []) => Some (if neg then (- v)%Z else v)
        | _ => None
        end
      else None
  end.

(** An unsigned decimal literal: [D+ (. D* )? | . D+], then an optional
    exponent. *)
Definition unsigned_decimal (neg : bool) (s : list ascii) : option float :=
  let '(ip, ni, s1) := take_digits 0 s in
  let '(m, nf, s2) := match s1 with
                      | "."%char :: t => let '(v, n, rest) := take_digits ip t in (v, n, rest)
                      | _ => (ip, 0, s1)
                      end in
  if ((ni + nf)%nat =? 0)%nat then None
  else option_map (fun e => decimal_to_float neg m (e - Z.of_nat nf)%Z) (exponent s2).

Definition inf_or_nan (neg : bool) (s : list ascii) : option float :=
  let t := string_of_list_ascii (map lower s) in
  if (String.eqb t "inf" || String.eqb t "infinity")%bool
  then Some (if neg then neg_infinity else infinity)
  else if String.eqb t "nan" then Some nan
  else None.

Definition signed_literal (s : list ascii) : option float :=
  let '(neg, body) := match s with
                      | "-"%char :: t => (true, t)
                      | "+"%char :: t => (false, t)
                      | _ => (false, s)
                      end in
  match inf_or_nan neg body with
  | Some x => Some x
  | None => unsigned_decimal neg body
  end.

(** [float(s)] for ASCII text; [None] stands for [ValueError]. *)
Definition of_str (s : string) : option float :=
  let t := strip (list_ascii_of_string s) in
  if existsb (Ascii.eqb "_") t then
    match drop_underscores None t with
    | Some u => signed_literal u
    | None => None
    end
  else signed_literal t.

End PyFloat.

(** ** Regular expressions

    The constructs of [re] the program's two patterns use, run by a
    backtracking matcher that explores alternatives in [re]'s order:
    repetitions are greedy and give back one occurrence at a time. *)
Module Re.

Inductive regex : Type :=
| Lit (c : ascii)                  (* an escaped literal: [\{], [\.], [\}] *)
| Digit                            (* [\d] *)
| Any                              (* [.] under [re.DOTALL] *)
| Cat (r1 r2 : regex)
| Star (r : regex)                 (* [r*] *)
| Rep (r : regex) (lo hi : nat).   (* [r{lo,hi}] *)

(** [r*] around a matcher [body] for [r]: take one more [r] while that
    consumes something, and when the rest cannot be matched that way stop
    here.  [fuel] bounds the number of rounds; the length of the text is
    enough, each round consuming a character. *)
Fixpoint star_loop {A : Type} (body : string -> (string -> option A) -> option A)
  (k : string -> option A) (fuel : nat) (s : string) {struct fuel} : option A :=
  match fuel with
  | O => k s
  | S fuel' =>
      match body s (fun s' => if (String.length s' <? String.length s)%nat
                              then star_loop body k fuel' s' else None) with
      | Some a => Some a
      | None => k s
      end
  end.

(** [r{lo,hi}]: up to [hi] occurrences, as many as possible, at least
    [lo]. *)
Fixpoint rep_loop {A : Type} (body : string -> (string -> option A) -> option A)
  (k : string -> option A) (lo hi : nat) (s : string) {struct hi} : option A :=
  match hi with
  | O => if (lo =? 0)%nat then k s else None
  | S hi' =>
      match body s (rep_loop body k (pred lo) hi') with
      | Some a => Some a
      | None => if (lo =? 0)%nat then k s else None
      end
  end.

(** [run r s k]: match [r] at the start of [s] and hand what is left of
    [s] to [k]; the first alternative [k] accepts wins. *)
Fixpoint run {A : Type} (r : regex) (s : string) (k : string -> option A) {struct r} : option A :=
  match r with
  | Lit c =>
      match s with
      | String c' s' => if Ascii.eqb c c' then k s' else None
      | EmptyString => None
      end
  | Digit =>
      match s with
      | String c' s' => if PyFloat.is_digit c' then k s' else None
      | EmptyString => None
      end
  | Any =>
      match s with
      | String _ s' => k s'
      | EmptyString => None
      end
  | Cat r1 r2 => run r1 s (fun s' => run r2 s' k)
  | Star r1 => star_loop (run r1) k (String.length s) s
  | Rep r1 lo hi => rep_loop (run r1) k lo hi s
  end.

(** [re.fullmatch(r, s)] as a truth value. *)
Definition fullmatch (r : regex) (s : string) : bool :=
  match run r s (fun rest => match rest with EmptyString => Some tt | _ => None end) with
  | Some _ => true
  | None => false
  end.

(** [re.search(r, s)]: the text of the leftmost match, [m.group(0)]. *)
Fixpoint search (r : regex) (s : string) : option string :=
  match run r s (fun rest => Some rest) with
  | Some rest => Some (substring 0 (String.length s - String.length rest) s)
  | None =>
      match s with
      | String _ s' => search r s'
      | EmptyString => None
      end
  end.

End Re.

(** ** JSON values, as [json.loads] builds them *)

Unset Elimination Schemes.
Inductive JSON : Type :=
| JNull
| JBool (b : bool)
| JInt (n : Z)
| JFloat (x : float)
| JStr (s : string)
| JList (items : list JSON)
| JDict (entries : list (string * JSON)).
Set Elimination Schemes.

(** A [dict] is the list of its entries in insertion order; every dict
    the program builds or decodes has pairwise distinct keys. *)
Fixpoint dict_lookup (d : list (string * JSON)) (k : string) : option JSON :=
  match d with
  | [] => None
  | (k', v) :: d' => if String.eqb k k' then Some v else dict_lookup d' k
  end.

(** [d[k] = v] *)
Fixpoint dict_set (d : list (string * JSON)) (k : string) (v : JSON) : list (string * JSON) :=
  match d with
  | [] => [(k, v)]
  | (k', v') :: d' => if String.eqb k k' then (k', v) :: d' else (k', v') :: dict_set d' k v
  end.

(** [k in d] for a JSON value that is a dict. *)
Definition has_key (j : JSON) (k : string) : bool :=
  match j with
  | JDict d => match dict_lookup d k with Some _ => true | None => false end
  | _ => false
  end.

(** ** [json.loads]

    CPython's decoder ([json.decoder] with the C scanner), for the
    examples below: the grammar it accepts (standard JSON plus [NaN],
    [Infinity] and [-Infinity]), the value it builds and the text of the
    [JSONDecodeError] it raises.  Positions count bytes, which are Python's
    character positions on ASCII text.  The interpreter's own limits
    (recursion depth, digits of an integer literal) are not modelled. *)
Module Json.

Definition nat_to_string (n : nat) : string :=
  DecimalString.NilZero.string_of_uint (Nat.to_uint n).

(** [doc.count("\n", 0, pos)] and the column of [pos] in its line. *)
Fixpoint line_col (doc : list ascii) (pos line col : nat) : nat * nat :=
  match pos, doc with
  | S pos', c :: doc' =>
      if Ascii.eqb c "010" then line_col doc' pos' (S line) 1
      else line_col doc' pos' line (S col)
  | _, _ => (line, col)
  end.

(** [str(JSONDecodeError(msg, doc, pos))] *)
Definition errmsg (msg : string) (doc : list ascii) (pos : nat) : Exn :=
  let '(line, col) := line_col doc pos 1 1 in
  mkExn JSONDecodeError
    (msg ++ ": line " ++ nat_to_string line ++ " column " ++ nat_to_string col
         ++ " (char " ++ nat_to_string pos ++ ")").

(** A failed parse: the message and the position it points at. *)
Definition PErr : Type := string * nat.

Definition is_ws (c : ascii) : bool :=
  Ascii.eqb c " " || Ascii.eqb c "009" || Ascii.eqb c "010" || Ascii.eqb c "013".

Fixpoint skip_ws (s : list ascii) (pos : nat) : list ascii * nat :=
  match s with
  | c :: s' => if is_ws c then skip_ws s' (S pos) else (s, pos)
  | [] => (s, pos)
  end.

Definition hex_val (c : ascii) : option N :=
  let n := N_of_ascii c in
  if ((48 <=? n) && (n <=? 57))%N then Some (n - 48)%N
  else if ((97 <=? n) && (n <=? 102))%N then Some (n - 87)%N
  else if ((65 <=? n) && (n <=? 70))%N then Some (n - 55)%N
  else None.

Definition hex4 (a b c d : ascii) : option N :=
  match hex_val a, hex_val b, hex_val c, hex_val d with
  | Some x, Some y, Some z, Some w => Some (((x * 16 + y) * 16 + z) * 16 + w)%N
  | _, _, _, _ => None
  end.

(** The UTF-8 bytes of a code point, last byte first. *)
Definition utf8_rev (c : N) : list ascii :=
  let cont (x : N) := ascii_of_N (128 + x mod 64)%N in
  if (c <? 128)%N then [ascii_of_N c]
  else if (c <? 2048)%N then [cont c; ascii_of_N (192 + c / 64)%N]
  else if (c <? 65536)%N then [cont c; cont (c / 64)%N; ascii_of_N (224 + c / 4096)%N]
  else [cont c; cont (c / 64)%N; cont (c / 4096)%N; ascii_of_N (240 + c / 262144)%N].

Definition simple_escape (c : ascii) : option ascii :=
  match c with
  | "034"%char => Some "034"%char
  | "\"%char => Some "\"%char
  | "/"%char => Some "/"%char
  | "b"%char => Some "008"%char
  | "f"%char => Some "012"%char
  | "n"%char => Some "010"%char
  | "r"%char => Some "013"%char
  | "t"%char => Some "009"%char
  | _ => None
  end.

(** [scanstring]: [s] starts just after the opening quote, at position
    [pos]; [begin] is the quote's position; [acc] is the text decoded so
    far, last byte first.  Returns the string, what follows the closing
    quote and its position. *)
Fixpoint scanstring (s : list ascii) (pos begin : nat) (acc : list ascii)
  : Result PErr (string * list ascii * nat) :=
  match s with
  | [] => Raise ("Unterminated string starting at", begin)
  | "034"%char :: s1 => Ok (string_of_list_ascii (rev acc), s1, S pos)
  | "\"%char :: s1 =>
      match s1 with
      | [] => Raise ("Unterminated string starting at", begin)
      | "u"%char :: s2 =>
          match s2 with
          | h1 :: h2 :: h3 :: h4 :: s6 =>
              match hex4 h1 h2 h3 h4 with
              | None => Raise ("Invalid \uXXXX escape", S pos)
              | Some c =>
                  match s6 with
                  | "\"%char :: "u"%char :: l1 :: l2 :: l3 :: l4 :: s12 =>
                      if ((55296 <=? c) && (c <=? 56319))%N then
                        match hex4 l1 l2 l3 l4 with
                        | None => Raise ("Invalid \uXXXX escape", pos + 7)
                        | Some c2 =>
                            if ((56320 <=? c2) && (c2 <=? 57343))%N
                            then scanstring s12 (pos + 12) begin
                                   (utf8_rev (65536 + (c - 55296) * 1024 + (c2 - 56320)) ++ acc)
                            else scanstring s6 (pos + 6) begin (utf8_rev c ++ acc)
                        end
                      else scanstring s6 (pos + 6) begin (utf8_rev c ++ acc)
                  | _ => scanstring s6 (pos + 6) begin (utf8_rev c ++ acc)
                  end
              end
          | _ => Raise ("Invalid \uXXXX escape", S pos)
          end
      | e :: s2 =>
          match simple_escape e with
          | Some c => scanstring s2 (pos + 2) begin (c :: acc)
          | None => Raise ("Invalid \escape", pos)
          end
      end
  | c :: s1 =>
      if (N_of_ascii c <=? 31)%N then Raise ("Invalid control character at", pos)
      else scanstring s1 (S pos) begin (c :: acc)
  end.

(** [s[idx:idx+n] == lit], giving what follows. *)
Fixpoint strip_prefix (lit : list ascii) (s : list ascii) : option (list ascii) :=
  match lit, s with
  | [], _ => Some s
  | a :: lit', b :: s' => if Ascii.eqb a b then strip_prefix lit' s' else None
  | _ :: _, [] => None
  end.

Definition chars (s : string) : list ascii := list_ascii_of_string s.

(** The number at the start of [s], which begins at [pos]: an optional
    minus, [0] or a run of digits not starting with [0], then a fraction
    and an exponent where they are complete.  A fraction or an exponent
    makes it a [float], otherwise it is an [int]. *)
Definition match_number (s : list ascii) (pos : nat) : Result PErr (JSON * list ascii * nat) :=
  let '(neg, s1, n0) := match s with
                        | "-"%char :: t => (true, t, 1)
                        | _ => (false, s, 0)
                        end in
  match s1 with
  | [] => Raise ("Expecting value", pos)
  | c :: t =>
      if PyFloat.is_digit c then
        let '(ip, ni, s2) := if Ascii.eqb c "0" then (0%Z, 1, t) else PyFloat.take_digits 0 s1 in
        let '(m, nf, s3) :=
          match s2 with
          | "."%char :: d :: _ =>
              if PyFloat.is_digit d
              then let '(v, n, rest) := PyFloat.take_digits ip (tl s2) in (v, S n, rest)
              else (ip, 0, s2)
          | _ => (ip, 0, s2)
          end in
        let '(e, ne, s4) :=
          match s3 with
          | x :: s3' =>
              if Ascii.eqb (PyFloat.lower x) "e" then
                let '(eneg, es, k) := match s3' with
                                      | "-"%char :: u => (true, u, 2)
                                      | "+"%char :: u => (false, u, 2)
                                      | _ => (false, s3', 1)
                                      end in
                match PyFloat.take_digits 0 es with
                | (_, O, _) => (0%Z, 0, s3)
                | (v, n, rest) => (if eneg then (- v)%Z else v, k + n, rest)
                end
              else (0%Z, 0, s3)
          | [] => (0%Z, 0, s3)
          end in
        let value :=
          if ((nf + ne)%nat =? 0)%nat then JInt (if neg then (- m)%Z else m)
          else JFloat (PyFloat.decimal_to_float neg m (e - Z.of_nat (pred nf))%Z) in
        Ok (value, s4, pos + n0 + ni + nf + ne)
      else Raise ("Expecting value", pos)
  end.

(** [scan_once] with the loops of [JSONObject] and [JSONArray];
    [members] and [items] start at a key and at an element.  [fuel] bounds
    the recursion: a call passes one unit less to the calls it makes, and
    of two calls in a row one consumes a character, so twice the length of
    the text is enough. *)
Fixpoint scan_once (fuel : nat) (s : list ascii) (pos : nat) {struct fuel}
  : Result PErr (JSON * list ascii * nat) :=
  match fuel with
  | O => Raise ("Expecting value", pos)
  | S fuel' =>
      match s with
      | [] => Raise ("Expecting value", pos)
      | "034"%char :: s1 =>
          match scanstring s1 (S pos) pos [] with
          | Ok (str, rest, p) => Ok (JStr str, rest, p)
          | Raise e => Raise e
          end
      | "{"%char :: s1 =>
          let '(s2, p2) := skip_ws s1 (S pos) in
          match s2 with
          | "}"%char :: rest => Ok (JDict [], rest, S p2)
          | _ => members fuel' [] s2 p2
          end
      | "["%char :: s1 =>
          let '(s2, p2) := skip_ws s1 (S pos) in
          match s2 with
          | "]"%char :: rest => Ok (JList [], rest, S p2)
          | _ => items fuel' [] s2 p2
          end
      | _ =>
          match strip_prefix (chars "null") s with
          | Some rest => Ok (JNull, rest, pos + 4)
          | None =>
          match strip_prefix (chars "true") s with
          | Some rest => Ok (JBool true, rest, pos + 4)
          | None =>
          match strip_prefix (chars "false") s with
          | Some rest => Ok (JBool false, rest, pos + 5)
          | None =>
          match strip_prefix (chars "NaN") s with
          | Some rest => Ok (JFloat nan, rest, pos + 3)
          | None =>
          match strip_prefix (chars "Infinity") s with
          | Some rest => Ok (JFloat infinity, rest, pos + 8)
          | None =>
          match strip_prefix (chars "-Infinity") s with
          | Some rest => Ok (JFloat neg_infinity, rest, pos + 9)
          | None => match_number s pos
          end end end end end end
      end
  end

with members (fuel : nat) (acc : list (string * JSON)) (s : list ascii) (pos : nat) {struct fuel}
  : Result PErr (JSON * list ascii * nat) :=
  match fuel with
  | O => Raise ("Expecting value", pos)
  | S fuel' =>
      match s with
      | "034"%char :: s1 =>
          match scanstring s1 (S pos) pos [] with
          | Raise e => Raise e
          | Ok (key, s2, p2) =>
              let '(s3, p3) := skip_ws s2 p2 in
              match s3 with
              | ":"%char :: s4 =>
                  let '(s5, p5) := skip_ws s4 (S p3) in
                  match scan_once fuel' s5 p5 with
                  | Raise e => Raise e
                  | Ok (v, s6, p6) =>
                      let acc' := dict_set acc key v in
                      let '(s7, p7) := skip_ws s6 p6 in
                      match s7 with
                      | "}"%char :: rest => Ok (JDict acc', rest, S p7)
                      | ","%char :: s8 =>
                          let '(s9, p9) := skip_ws s8 (S p7) in
                          members fuel' acc' s9 p9
                      | _ => Raise ("Expecting ',' delimiter", p7)
                      end
                  end
              | _ => Raise ("Expecting ':' delimiter", p3)
              end
          end
      | _ => Raise ("Expecting property name enclosed in double quotes", pos)
      end
  end

with items (fuel : nat) (acc : list JSON) (s : list ascii) (pos : nat) {struct fuel}
  : Result PErr (JSON * list ascii * nat) :=
  match fuel with
  | O => Raise ("Expecting value", pos)
  | S fuel' =>
      match scan_once fuel' s pos with
      | Raise e => Raise e
      | Ok (v, s1, p1) =>
          let '(s2, p2) := skip_ws s1 p1 in
          match s2 with
          | "]"%char :: rest => Ok (JList (rev (v :: acc)), rest, S p2)
          | ","%char :: s3 =>
              let '(s4, p4) := skip_ws s3 (S p2) in
              items fuel' (v :: acc) s4 p4
          | _ => Raise ("Expecting ',' delimiter", p2)
          end
      end
  end.

(** [json.loads(doc)] *)
Definition loads (doc : string) : Result Exn JSON :=
  let d := chars doc in
  match strip_prefix ["239"%char; "187"%char; "191"%char] d with
  | Some _ => Raise (errmsg "Unexpected UTF-8 BOM (decode using utf-8-sig)" d 0)
  | None =>
      let '(s0, p0) := skip_ws d 0 in
      match scan_once (2 * List.length d + 2) s0 p0 with
      | Raise (msg, pos) => Raise (errmsg msg d pos)
      | Ok (v, s1, p1) =>
          match skip_ws s1 p1 with
          | ([], _) => Ok v
          | (_, p2) => Raise (errmsg "Extra data" d p2)
          end
      end
  end.

End Json.

(** ** Data model *)

(** [ScanRequest]; [url] is the text [str(req.url)]. *)
Record ScanRequest : Type := {
  url : string;
  page_title : option string;
  page_text_snippet : option string;
  brand_claimed : option string;
  user_context : option string
}.

(** The dict [get_url_features] returns. *)
Record UrlFeatures : Type := {
  host : string;
  url_length : nat;
  num_dots : nat;
  num_hyphens : nat;
  has_https : bool;
  looks_like_ip : bool;
  suspicious_tld : bool
}.

(** What the program reads of [tldextract.extract(url)]. *)
Record ExtractResult : Type := {
  fqdn : string;
  suffix : string
}.

(** The [payload] dict sent to the classifier. *)
Record Payload : Type := {
  payload_url : string;
  payload_features : UrlFeatures;
  payload_title : option string;
  payload_snippet : option string;
  payload_brand : option string;
  payload_context : option string
}.

(** A classifier client: what [chat.completions.create] followed by
    [res.choices[0].message.content] yields for a payload.  It either
    raises or gives the content, which the API may leave [None].  The
    model name, the temperature and the system prompt are constants of the
    program, and [json.dumps(payload)] is a function of the payload. *)
Definition Client : Type := Payload -> Result Exn (option string).

(** [ScanResponse]; [resp_url] is its [url] field and [signals] holds the
    value under ["features"]. *)
Record ScanResponse : Type := {
  resp_url : string;
  verdict : string;
  risk_score : float;
  ml_score : float;
  genai_score : float;
  reasons : list string;
  signals : UrlFeatures;
  genai_summary : JSON
}.

(** What a run of the program finds around it: the libraries it calls
    and the module-level [groq_client], [None] when the credential or the
    SDK is missing. *)
Record Env : Type := {
  tld_extract : string -> ExtractResult;
  json_loads : string -> Result Exn JSON;
  float_of_str : string -> option float;
  groq_client : option Client
}.

(** ** Feature extractor *)

Definition SUSPICIOUS_TLDS : list string :=
  ["xyz"; "zip"; "click"; "top"; "tk"; "ml"; "ga"; "cf"].

(** [\d{1,3}(\.\d{1,3}){3}] *)
Definition ip_pattern : Re.regex :=
  Re.Cat (Re.Rep Re.Digit 1 3) (Re.Rep (Re.Cat (Re.Lit ".") (Re.Rep Re.Digit 1 3)) 3 3).

Definition is_ip (host : string) : bool := Re.fullmatch ip_pattern host.

(** [s.count(c)] for a one-character [c]. *)
Fixpoint count (c : ascii) (s : string) : nat :=
  match s with
  | EmptyString => 0
  | String c' s' => (if Ascii.eqb c c' then 1 else 0) + count c s'
  end.

Definition get_url_features (env : Env) (url : string) : UrlFeatures :=
  let ext := tld_extract env url in
  let host := fqdn ext in
  {| host := host;
     url_length := String.length url;
     num_dots := count "." host;
     num_hyphens := count "-" host;
     has_https := String.prefix "https" url;
     looks_like_ip := is_ip host;
     suspicious_tld := existsb (String.eqb (suffix ext)) SUSPICIOUS_TLDS |}.

(** ** Heuristic scorer *)

(** One [if] block of [ml_score_calc]: when [cond] holds, [score += delta]
    and [reasons.append(reason)]. *)
Definition rule (cond : bool) (delta : Z) (reason : string) (st : Z * list string)
  : Z * list string :=
  if cond then ((fst st + delta)%Z, snd st ++ [reason]) else st.

Definition ml_score_calc (features : UrlFeatures) : Z * list string :=
  let st := (0%Z, []) in
  let st := rule (looks_like_ip features) 20 "IP address used instead of domain" st in
  let st := rule (suspicious_tld features) 15 "Suspicious TLD detected" st in
  let st := rule (70 <? url_length features)%nat 10 "Unusually long URL" st in
  let st := rule (3 <=? num_hyphens features)%nat 10 "Too many hyphens in domain" st in
  let st := rule (negb (has_https features)) 10 "HTTPS not used" st in
  (Z.min (fst st) 100, snd st).

(** ** Classifier adapter *)

(** [\{.*\}] with [re.DOTALL] *)
Definition brace_pattern : Re.regex :=
  Re.Cat (Re.Lit "{") (Re.Cat (Re.Star Re.Any) (Re.Lit "}")).

Definition fallback_unavailable : JSON :=
  JDict [("genai_score", JInt 50);
         ("verdict", JStr "SUSPICIOUS");
         ("top_reasons", JList [JStr "GenAI not configured (missing GROQ_API_KEY or Groq SDK)."]);
         ("notes", JStr "Fallback used (GenAI unavailable)")].

Definition fallback_error (e : Exn) : JSON :=
  JDict [("genai_score", JInt 50);
         ("verdict", JStr "SUSPICIOUS");
         ("top_reasons", JList [JStr ("GenAI fallback: " ++ exc_text e)]);
         ("notes", JStr "Fallback used (GenAI error)")].

(** What [re.search] raises when the content is [None]. *)
Definition none_content_error : Exn :=
  mkExn TypeError "expected string or bytes-like object, got 'NoneType'".

(** The inner [try] of [genai_analysis]: [json.loads(content)], and in its
    handler the search for a braced block, a second [json.loads] on that
    block, or a bare [raise] of the first error.  On a [None] content
    [json.loads] raises and so does the [re.search] of the handler. *)
Definition recover_json (env : Env) (content : option string) : Result Exn JSON :=
  match content with
  | None => Raise none_content_error
  | Some text =>
      match json_loads env text with
      | Ok v => Ok v
      | Raise e =>
          match Re.search brace_pattern text with
          | Some block => json_loads env block
          | None => Raise e
          end
      end
  end.

Definition make_payload (req : ScanRequest) (features : UrlFeatures) : Payload :=
  {| payload_url := url req;
     payload_features := features;
     payload_title := page_title req;
     payload_snippet := page_text_snippet req;
     payload_brand := brand_claimed req;
     payload_context := user_context req |}.

Definition genai_analysis (env : Env) (req : ScanRequest) (features : UrlFeatures) : JSON :=
  match groq_client env with
  | None => fallback_unavailable
  | Some client =>
      let payload := make_payload req features in
      match (content <- client payload ;; recover_json env content) with
      | Ok v => v
      | Raise e => fallback_error e
      end
  end.

(** ** Fusion and the [/scan] route *)

(** [j.get(k, default)]; only a dict has [get]. *)
Definition dict_get (j : JSON) (k : string) (default : JSON) : Result ExcClass JSON :=
  match j with
  | JDict d => Ok (match dict_lookup d k with Some v => v | None => default end)
  | _ => Raise AttributeError
  end.

(** [float(v)] *)
Definition py_float (env : Env) (v : JSON) : Result ExcClass float :=
  match v with
  | JInt n => match PyFloat.of_int n with Some x => Ok x | None => Raise OverflowError end
  | JFloat x => Ok x
  | JBool b => Ok (if b then 1%float else 0%float)
  | JStr s => match float_of_str env s with Some x => Ok x | None => Raise ValueError end
  | JNull | JList _ | JDict _ => Raise TypeError
  end.

(** [l + v]: only a list can be added to a list. *)
Definition list_concat (l : list JSON) (v : JSON) : Result ExcClass (list JSON) :=
  match v with
  | JList l' => Ok (l ++ l')
  | _ => Raise TypeError
  end.

(** pydantic's validation of a [list[str]] field (version 2): every
    entry must be a [str]. *)
Fixpoint validate_str_list (l : list JSON) : Result ExcClass (list string) :=
  match l with
  | [] => Ok []
  | JStr s :: l' => rest <- validate_str_list l' ;; Ok (s :: rest)
  | _ :: _ => Raise ValidationError
  end.

(** [0.45 * ml_score + 0.55 * genai_score] *)
Definition final_score (ml_score genai_score : float) : float :=
  (0.45 * ml_score + 0.55 * genai_score)%float.

(** The [if]/[elif]/[else] on [final_score]. *)
Definition verdict_of (final_score : float) : string :=
  if (75 <=? final_score)%float then "PHISHING"
  else if (45 <=? final_score)%float then "SUSPICIOUS"
  else "SAFE".

(** The heuristic score as the float the product [0.45 * ml_score] uses;
    the score is at most 100, far from overflow. *)
Definition int_to_float (n : Z) : Result ExcClass float :=
  match PyFloat.of_int n with
  | Some x => Ok x
  | None => Raise OverflowError
  end.

Definition scan (env : Env) (req : ScanRequest) : Result ExcClass ScanResponse :=
  let features := get_url_features env (url req) in
  let '(ml_score, ml_reasons) := ml_score_calc features in
  let genai := genai_analysis env req features in
  score <- dict_get genai "genai_score" (JInt 50) ;;
  genai_score <- py_float env score ;;
  ml <- int_to_float ml_score ;;
  let final := final_score ml genai_score in
  top_reasons <- dict_get genai "top_reasons" (JList []) ;;
  all_reasons <- list_concat (map JStr ml_reasons) top_reasons ;;
  reasons <- validate_str_list (firstn 6 all_reasons) ;;
  Ok {| resp_url := url req;
        verdict := verdict_of final;
        risk_score := PyFloat.round2 final;
        ml_score := ml;
        genai_score := genai_score;
        reasons := reasons;
        signals := features;
        genai_summary := genai |}.

(** ** Start-up configuration and the [/health] route *)

(** [s.strip()], within ASCII. *)
Definition py_strip (s : string) : string :=
  string_of_list_ascii (PyFloat.strip (list_ascii_of_string s)).

(** [os.getenv(name, default).strip()]; [value] is the variable's value in
    the environment after [load_dotenv()], [None] when it is not set. *)
Definition getenv_stripped (value : option string) (default : string) : string :=
  py_strip (match value with Some v => v | None => default end).

(** The name [Groq] after the guarded import: [None] when the import
    failed, else the constructor [Groq(api_key=...)], which may raise. *)
Definition Sdk : Type := option (string -> Result Exn Client).

(** The module-level names [GROQ_API_KEY], [GROQ_MODEL] and
    [groq_client]. *)
Record Config : Type := {
  GROQ_API_KEY : string;
  GROQ_MODEL : string;
  configured_client : option Client
}.

(** The module's start-up code: the key and the model are read from the
    environment, and the client is built only when the key is not empty
    and the SDK is there; a constructor that raises leaves [None]. *)
Definition startup (key_var model_var : option string) (Groq : Sdk) : Config :=
  let api_key := getenv_stripped key_var EmptyString in
  let model := getenv_stripped model_var "llama-3.1-8b-instant" in
  let client :=
    match api_key, Groq with
    | EmptyString, _ => None
    | String _ _, None => None
    | String _ _, Some constructor =>
        match constructor api_key with
        | Ok c => Some c
        | Raise _ => None
        end
    end in
  {| GROQ_API_KEY := api_key; GROQ_MODEL := model; configured_client := client |}.

(** The dict [health] returns. *)
Record Health : Type := {
  status : string;
  groq_enabled : bool;
  model : string
}.

Definition health (cfg : Config) : Health :=
  {| status := "ok";
     groq_enabled := match configured_client cfg with Some _ => true | None => false end;
     model := GROQ_MODEL cfg |}.

(** ** The [/] route *)

(** [s.endswith(t)] *)
Definition endswith (t s : string) : bool :=
  (String.length t <=? String.length s)%nat
  && String.eqb (substring (String.length s - String.length t) (String.length t) s) t.

(** [s[1:-1]] *)
Definition strip_ends (s : string) : string :=
  substring 1 (String.length s - 2) s.

(** [s.replace(old, new)] for a non-empty [old], scanning from the left:
    [skip] counts the characters of the occurrence just replaced that are
    still to be passed over. *)
Fixpoint replace_from (old new : string) (skip : nat) (s : string) : string :=
  match s with
  | EmptyString => EmptyString
  | String c rest =>
      match skip with
      | S k => replace_from old new k rest
      | O =>
          if String.prefix old s
          then (new ++ replace_from old new (String.length old - 1) rest)%string
          else String c (replace_from old new 0 rest)
      end
  end.

(** With an empty [old], [new] goes before every character and at the
    end. *)
Fixpoint interleave (new : string) (s : string) : string :=
  match s with
  | EmptyString => new
  | String c rest => (new ++ String c (interleave new rest))%string
  end.

Definition replace (old new : string) (s : string) : string :=
  match old with
  | EmptyString => interleave new s
  | String _ _ => replace_from old new 0 s
  end.

Record HTMLResponse : Type := {
  content : string;
  status_code : nat
}.

(** The two characters backslash and [n], and the line feed. *)
Definition escaped_newline : string := String "\" (String "n" EmptyString).
Definition newline : string := String "010" EmptyString.
Definition double_quote : string := String "034" EmptyString.

(** [serve_ui]; [index_html] is [None] when [index.html] does not exist,
    else what opening and reading it gives. *)
Definition serve_ui (index_html : option (Result Exn string)) : Result Exn HTMLResponse :=
  match index_html with
  | None => Ok {| content := "<h3>index.html not found in api/static</h3>"; status_code := 500 |}
  | Some read =>
      html <- read ;;
      let html :=
        if (String.prefix "'" html && endswith "'" html)
           || (String.prefix double_quote html && endswith double_quote html)
        then strip_ends html else html in
      let html := replace escaped_newline newline html in
      Ok {| content := html; status_code := 200 |}
  end.

(** ** A sample environment

    CPython's [json.loads] and [float], a client with a fixed reply, and
    what [tldextract] answers for the URLs of the examples: a name under
    the public suffix [com], and an IP address, which has no public suffix
    and therefore an empty [fqdn]. *)

(** Writes a JSON text with backquotes for its double quotes. *)
Fixpoint dq (s : string) : string :=
  match s with
  | EmptyString => EmptyString
  | String c s' => String (if Ascii.eqb c "`" then "034"%char else c) (dq s')
  end.

Definition reply (text : string) : Client := fun _ => Ok (Some text).

Definition failing_client (e : Exn) : Client := fun _ => Raise e.

Definition sample_extract (url : string) : ExtractResult :=
  if String.eqb url "https://example.com/" then {| fqdn := "example.com"; suffix := "com" |}
  else if String.eqb url "http://example.com/" then {| fqdn := "example.com"; suffix := "com" |}
  else if String.eqb url "httpsx://example.com/" then {| fqdn := "example.com"; suffix := "com" |}
  else if String.eqb url "https://127.0.0.1/" then {| fqdn := EmptyString; suffix := EmptyString |}
  else {| fqdn := EmptyString; suffix := EmptyString |}.

Definition sample_env (client : option Client) : Env :=
  {| tld_extract := sample_extract;
     json_loads := Json.loads;
     float_of_str := PyFloat.of_str;
     groq_client := client |}.

Definition request (u : string) : ScanRequest :=
  {| url := u; page_title := None; page_text_snippet := None;
     brand_claimed := None; user_context := None |}.

(** Two classifier replies with the same score and different verdict
    hints, reasons and notes, and the responses [scan] gives for them on
    [https://example.com/]. *)
Definition reply_safe : string :=
  dq "{`genai_score`: 80, `verdict`: `SAFE`, `top_reasons`: [`known brand`], `notes`: `a`}".

Definition reply_phishing : string :=
  dq "{`genai_score`: 80, `verdict`: `PHISHING`, `top_reasons`: [`login form`, `odd path`], `notes`: `b`}".

Definition example_features : UrlFeatures :=
  {| host := "example.com"; url_length := 20; num_dots := 1; num_hyphens := 0;
     has_https := true; looks_like_ip := false; suspicious_tld := false |}.

Definition response_safe : ScanResponse :=
  {| resp_url := "https://example.com/";
     verdict := "SAFE";
     risk_score := 44;
     ml_score := 0;
     genai_score := 80;
     reasons := ["known brand"];
     signals := example_features;
     genai_summary := JDict [("genai_score", JInt 80); ("verdict", JStr "SAFE");
                             ("top_reasons", JList [JStr "known brand"]);
                             ("notes", JStr "a")] |}.

Definition response_phishing : ScanResponse :=
  {| resp_url := "https://example.com/";
     verdict := "SAFE";
     risk_score := 44;
     ml_score := 0;
     genai_score := 80;
     reasons := ["login form"; "odd path"];
     signals := example_features;
     genai_summary := JDict [("genai_score", JInt 80); ("verdict", JStr "PHISHING");
                             ("top_reasons", JList [JStr "login form"; JStr "odd path"]);
                             ("notes", JStr "b")] |}.

(** ** Definitions used to state the properties *)

(** The rule table of the specification's section 4.2: condition, score
    delta and reason, in the order of evaluation. *)
Definition rule_table (f : UrlFeatures) : list (bool * Z * string) :=
  [ (looks_like_ip f, 20%Z, "IP address used instead of domain");
    (suspicious_tld f, 15%Z, "Suspicious TLD detected");
    ((70 <? url_length f)%nat, 10%Z, "Unusually long URL");
    ((3 <=? num_hyphens f)%nat, 10%Z, "Too many hyphens in domain");
    (negb (has_https f), 10%Z, "HTTPS not used") ].

(** The rows of the table whose condition holds. *)
Definition triggered (f : UrlFeatures) : list (bool * Z * string) :=
  filter (fun row => fst (fst row)) (rule_table f).

Definition sum_deltas (rows : list (bool * Z * string)) : Z :=
  fold_right (fun row acc => (snd (fst row) + acc)%Z) 0%Z rows.

(** The four fields of a [ClassifierResult]. *)
Definition all_four_fields (j : JSON) : bool :=
  has_key j "genai_score" && has_key j "verdict" && has_key j "top_reasons" && has_key j "notes".

(** A field of the response of a run that returned one. *)
Definition response_field {A : Type} (field : ScanResponse -> A)
  (run : Result ExcClass ScanResponse) : option A :=
  match run with
  | Ok r => Some (field r)
  | Raise _ => None
  end.

(** A group of one to three ASCII digits. *)
Fixpoint all_digits (s : string) : bool :=
  match s with
  | EmptyString => true
  | String c s' => PyFloat.is_digit c && all_digits s'
  end.

Definition is_group (g : string) : bool :=
  (1 <=? String.length g)%nat && (String.length g <=? 3)%nat && all_digits g.

(** * Properties *)

(** ** Heuristic scorer *)

(** C3: [ml_score_calc] computes what the rule table says: the score is
    the sum of the deltas of the triggered rules capped at 100, the reasons
    are those of the triggered rules in table order, one each.  The score
    lies in [0, 100], the uncapped sum never exceeds 65, nothing triggered
    gives score 0 and no reason, and the result depends on the features
    only through the five conditions. *)
Theorem ml_score_calc_spec :
  forall f : UrlFeatures,
    ml_score_calc f = (Z.min (sum_deltas (triggered f)) 100, map snd (triggered f))
    /\ (0 <= fst (ml_score_calc f) <= 100)%Z
    /\ (0 <= sum_deltas (triggered f) <= 65)%Z
    /\ fst (ml_score_calc f) = sum_deltas (triggered f)
    /\ List.length (snd (ml_score_calc f)) = List.length (triggered f)
    /\ (triggered f = [] -> ml_score_calc f = (0%Z, []))
    /\ (forall g : UrlFeatures,
          map (fun row => fst (fst row)) (rule_table g) = map (fun row => fst (fst row)) (rule_table f) ->
          ml_score_calc g = ml_score_calc f).
Proof.
  intro f.
  assert (Hg : forall g : UrlFeatures,
             map (fun row => fst (fst row)) (rule_table g)
             = map (fun row => fst (fst row)) (rule_table f) ->
             ml_score_calc g = ml_score_calc f).
  { intros g Hg. cbv [rule_table map fst snd] in Hg.
    injection Hg as H1 H2 H3 H4 H5.
    change ((3 <=? num_hyphens g)%nat = (3 <=? num_hyphens f)%nat) in H4.
    apply (f_equal negb) in H5. rewrite !negb_involutive in H5.
    unfold ml_score_calc. now rewrite H1, H2, H3, H4, H5. }
  repeat split; try exact Hg; clear Hg;
    unfold ml_score_calc, triggered, rule_table, rule, sum_deltas;
    destruct (looks_like_ip f), (suspicious_tld f), (70 <? url_length f)%nat,
      (3 <=? num_hyphens f)%nat, (has_https f);
    cbn [filter fst snd negb map fold_right app List.length];
    try reflexivity; try lia; intro; (reflexivity || discriminate).
Qed.

(** ** Feature extractor *)

Lemma prefix_iff_append :
  forall p s : string, String.prefix p s = true <-> exists rest, s = (p ++ rest)%string.
Proof.
  induction p as [| c p IH]; intros s.
  - split; [intros _; exists s; reflexivity | intros _; destruct s; reflexivity].
  - destruct s as [| d s]; cbn [String.prefix].
    + split; [discriminate | intros [rest H]; discriminate H].
    + destruct (ascii_dec c d) as [-> | Hne].
      * rewrite IH. split; intros [rest H]; exists rest.
        -- now rewrite H.
        -- now injection H.
      * split; [discriminate | intros [rest H]; injection H as H1 H2; congruence].
Qed.

(** C9: [has_https] is true exactly when the URL text begins with the
    five characters [https], whatever follows them; so [httpsx://...]
    counts as HTTPS. *)
Theorem has_https_iff_prefix :
  (forall (env : Env) (u : string),
      has_https (get_url_features env u) = true <-> exists rest, u = ("https" ++ rest)%string)
  /\ has_https (get_url_features (sample_env None) "httpsx://example.com/") = true.
Proof.
  split.
  - intros env u. unfold get_url_features; cbn [has_https].
    apply prefix_iff_append.
  - reflexivity.
Qed.

(** C10 fails as stated: for [https://127.0.0.1/] the extracted host is
    empty and [has_https] is true. *)
Lemma empty_host_keeps_https :
  host (get_url_features (sample_env None) "https://127.0.0.1/") = EmptyString
  /\ has_https (get_url_features (sample_env None) "https://127.0.0.1/") = true.
Proof. split; reflexivity. Qed.

(** C10, amended: when the extracted host is empty, [num_dots] and
    [num_hyphens] are zero and [looks_like_ip] is false, all three being
    computed from the host; [has_https] still follows the URL's prefix and
    [suspicious_tld] still follows the extracted suffix, false when that
    is empty too. *)
Theorem empty_host_features :
  forall (env : Env) (u : string),
    host (get_url_features env u) = EmptyString ->
    num_dots (get_url_features env u) = 0
    /\ num_hyphens (get_url_features env u) = 0
    /\ looks_like_ip (get_url_features env u) = false
    /\ has_https (get_url_features env u) = String.prefix "https" u
    /\ suspicious_tld (get_url_features env u)
       = existsb (String.eqb (suffix (tld_extract env u))) SUSPICIOUS_TLDS
    /\ (suffix (tld_extract env u) = EmptyString -> suspicious_tld (get_url_features env u) = false).
Proof.
  intros env u. unfold get_url_features.
  cbn [host num_dots num_hyphens looks_like_ip has_https suspicious_tld].
  intros ->. repeat split. intros ->. reflexivity.
Qed.

Lemma empty_host_features_witness :
  host (get_url_features (sample_env None) "https://127.0.0.1/") = EmptyString
  /\ num_dots (get_url_features (sample_env None) "https://127.0.0.1/") = 0
  /\ num_hyphens (get_url_features (sample_env None) "https://127.0.0.1/") = 0
  /\ looks_like_ip (get_url_features (sample_env None) "https://127.0.0.1/") = false.
Proof.
  split; [reflexivity |].
  destruct (empty_host_features (sample_env None) "https://127.0.0.1/" eq_refl)
    as (H1 & H2 & H3 & _).
  exact (conj H1 (conj H2 H3)).
Defined.

(** ** The braced block found by [re.search] *)

Lemma append_assoc :
  forall a b c : string, ((a ++ b) ++ c)%string = (a ++ (b ++ c))%string.
Proof.
  induction a as [| x a IH]; intros b c; cbn [append]; [reflexivity | now rewrite IH].
Qed.

Lemma length_append :
  forall a b : string, String.length (a ++ b) = String.length a + String.length b.
Proof.
  induction a as [| x a IH]; intros b; cbn [append String.length]; [reflexivity | now rewrite IH].
Qed.

Lemma substring_prefix :
  forall a b : string,
    substring 0 (String.length (a ++ b) - String.length b) (a ++ b) = a.
Proof.
  intros a b. rewrite length_append.
  replace (String.length a + String.length b - String.length b) with (String.length a) by lia.
  induction a as [| x a IH]; cbn [append String.length substring].
  - destruct b; reflexivity.
  - now rewrite IH.
Qed.

Lemma count_cons_zero :
  forall (c d : ascii) (s : string),
    count c (String d s) = 0 -> Ascii.eqb c d = false /\ count c s = 0.
Proof.
  intros c d s. cbn [count]. destruct (Ascii.eqb c d); [discriminate | auto].
Qed.

(** A closing brace cannot be matched where there is none. *)
Lemma close_brace_absent :
  forall (A : Type) (k : string -> option A) (t : string),
    count "}" t = 0 -> Re.run (Re.Lit "}") t k = None.
Proof.
  intros A k [| c t] H; cbn [Re.run]; [reflexivity |].
  apply count_cons_zero in H as [-> _]. reflexivity.
Qed.

Lemma run_any_cons :
  forall (A : Type) (c : ascii) (s : string) (k : string -> option A),
    Re.run Re.Any (String c s) k = k s.
Proof. reflexivity. Qed.

Lemma run_any_empty :
  forall (A : Type) (k : string -> option A), Re.run Re.Any EmptyString k = None.
Proof. reflexivity. Qed.

(** [.*] followed by [k'] finds no match in a text on whose suffixes
    [k'] fails. *)
Lemma star_any_none :
  forall (A : Type) (k' : string -> option A),
    (forall t, count "}" t = 0 -> k' t = None) ->
    forall (fuel : nat) (post : string),
      count "}" post = 0 ->
      Re.star_loop (Re.run Re.Any) k' fuel post = None.
Proof.
  intros A k' Hk'. induction fuel as [| fuel IH]; intros post Hpost; cbn [Re.star_loop].
  - now apply Hk'.
  - destruct post as [| c p].
    + rewrite run_any_empty. now apply Hk'.
    + pose proof Hpost as Hp. apply count_cons_zero in Hp as [_ Hp].
      rewrite run_any_cons. cbn [String.length].
      rewrite (proj2 (Nat.ltb_lt _ _)) by lia.
      rewrite (IH p Hp). now apply Hk'.
Qed.

(** [.*] is greedy: followed by [k'], it runs to the last place where
    [k'] succeeds. *)
Lemma star_any_last :
  forall (A : Type) (k' : string -> option A) (a : A) (post : string),
    (forall t, count "}" t = 0 -> k' t = None) ->
    count "}" post = 0 ->
    k' (String "}" post) = Some a ->
    forall (mid : string) (fuel : nat),
      String.length (mid ++ String "}" post) <= fuel ->
      Re.star_loop (Re.run Re.Any) k' fuel (mid ++ String "}" post) = Some a.
Proof.
  intros A k' a post Hk' Hpost Hk. induction mid as [| c mid IH]; intros fuel Hfuel;
    cbn [append String.length] in *.
  - destruct fuel as [| fuel]; [lia |]. cbn [Re.star_loop].
    rewrite run_any_cons. cbn [String.length].
    rewrite (proj2 (Nat.ltb_lt _ _)) by lia.
    rewrite star_any_none by assumption. exact Hk.
  - destruct fuel as [| fuel]; [lia |]. cbn [Re.star_loop].
    rewrite run_any_cons. cbn [String.length].
    rewrite (proj2 (Nat.ltb_lt _ _)) by lia.
    rewrite IH by lia. reflexivity.
Qed.

(** No match starts at a character other than an opening brace. *)
Lemma brace_pattern_needs_brace :
  forall (A : Type) (k : string -> option A) (c : ascii) (s : string),
    Ascii.eqb "{" c = false -> Re.run brace_pattern (String c s) k = None.
Proof.
  intros A k c s Hc. unfold brace_pattern. cbn [Re.run]. now rewrite Hc.
Qed.

(** [re.search] with [\{.*\}] returns the text from the first opening
    brace through the last closing brace. *)
Lemma search_brace_span :
  forall pre mid post : string,
    count "{" pre = 0 ->
    count "}" post = 0 ->
    Re.search brace_pattern (pre ++ String "{" (mid ++ String "}" post))
    = Some (String "{" (mid ++ "}")).
Proof.
  induction pre as [| c pre IH]; intros mid post Hpre Hpost; cbn [append].
  - cbn [Re.search]. unfold brace_pattern at 1. cbn [Re.run]. rewrite Ascii.eqb_refl.
    rewrite (star_any_last _ _ post post).
    + f_equal.
      replace (String "{" (mid ++ String "}" post))
        with ((String "{" (mid ++ "}")) ++ post)%string.
      * apply substring_prefix.
      * cbn [append]. f_equal. now rewrite append_assoc.
    + intros t Ht. now apply close_brace_absent.
    + exact Hpost.
    + cbn [Re.run]. now rewrite Ascii.eqb_refl.
    + lia.
  - apply count_cons_zero in Hpre as [Hc Hpre].
    cbn [Re.search]. rewrite brace_pattern_needs_brace by exact Hc.
    now apply IH.
Qed.

(** Without a closing brace there is no block at all. *)
Lemma search_brace_none :
  forall text : string, count "}" text = 0 -> Re.search brace_pattern text = None.
Proof.
  induction text as [| c text IH]; intros H.
  - reflexivity.
  - cbn [Re.search]. pose proof H as H'. apply count_cons_zero in H' as [_ Ht].
    rewrite (IH Ht).
    unfold brace_pattern. cbn [Re.run].
    destruct (Ascii.eqb "{" c); [| reflexivity].
    rewrite star_any_none; [reflexivity | | exact Ht].
    intros t Hc. now apply close_brace_absent.
Qed.

(** ** Classifier adapter *)

(** C5: when [json.loads] rejects the reply, the adapter parses the text
    from the first opening brace through the last closing brace, whatever
    lies between them, and returns what that yields (or the fallback when
    that fails too).  On the reply of the specification's round-trip test
    direct parsing fails and the recovered result has [genai_score] 80. *)
Theorem brace_recovery :
  (forall (env : Env) (req : ScanRequest) (features : UrlFeatures) (client : Client)
          (pre mid post : string) (e : Exn),
      groq_client env = Some client ->
      client (make_payload req features) = Ok (Some (pre ++ "{" ++ mid ++ "}" ++ post)%string) ->
      json_loads env (pre ++ "{" ++ mid ++ "}" ++ post)%string = Raise e ->
      count "{" pre = 0 ->
      count "}" post = 0 ->
      genai_analysis env req features
      = match json_loads env ("{" ++ mid ++ "}")%string with
        | Ok v => v
        | Raise e' => fallback_error e'
        end)
  /\ (let text := dq "here's the result: {`genai_score`: 80, `verdict`: `PHISHING`, `top_reasons`: [`x`], `notes`: `n`} thanks" in
      let env := sample_env (Some (reply text)) in
      Json.loads text
        = Raise (mkExn JSONDecodeError "Expecting value: line 1 column 1 (char 0)")
      /\ genai_analysis env (request "https://example.com/")
           (get_url_features env "https://example.com/")
         = JDict [("genai_score", JInt 80); ("verdict", JStr "PHISHING");
                  ("top_reasons", JList [JStr "x"]); ("notes", JStr "n")]
      /\ dict_get (genai_analysis env (request "https://example.com/")
                     (get_url_features env "https://example.com/"))
           "genai_score" (JInt 50) = Ok (JInt 80))
  /\ Re.search brace_pattern "a {b} c {d} e" = Some "{b} c {d}"%string.
Proof.
  split; [| split].
  - intros env req features client pre mid post e Hclient Hreply Hfail Hpre Hpost.
    unfold genai_analysis. rewrite Hclient. cbv zeta. rewrite Hreply.
    unfold bind, recover_json. rewrite Hfail.
    cbn [append] in *. rewrite search_brace_span by assumption.
    destruct (json_loads env (String "{" (mid ++ "}"))); reflexivity.
  - vm_compute. repeat split.
  - vm_compute. reflexivity.
Qed.

Lemma brace_recovery_witness :
  genai_analysis
    (sample_env (Some (reply "ok {} bye")))
    (request "https://example.com/")
    (get_url_features (sample_env None) "https://example.com/")
  = JDict [].
Proof.
  exact (proj1 brace_recovery (sample_env (Some (reply "ok {} bye")))
           (request "https://example.com/")
           (get_url_features (sample_env None) "https://example.com/")
           (reply "ok {} bye") "ok " EmptyString " bye"
           (mkExn JSONDecodeError "Expecting value: line 1 column 1 (char 0)")
           eq_refl eq_refl eq_refl eq_refl eq_refl).
Defined.

(** C4 fails as stated: a reply that is a JSON object with one field
    comes back as it is, without the other three. *)
Lemma partial_reply_lacks_fields :
  let env := sample_env (Some (reply (dq "{`genai_score`: 80}"))) in
  let result := genai_analysis env (request "https://example.com/")
                  (get_url_features env "https://example.com/") in
  result = JDict [("genai_score", JInt 80)]
  /\ has_key result "verdict" = false
  /\ all_four_fields result = false.
Proof. vm_compute. repeat split. Qed.

(** C4, amended: without a client, when the call raises, when the content
    is missing and when no parse succeeds, the adapter returns a fallback
    dict, and both fallback dicts hold all four fields; when the reply, or
    failing that its braced block, parses to a JSON object, the adapter
    returns that object unchanged, so it holds the fields the classifier
    wrote and no others. *)
Theorem genai_analysis_fields :
  forall (env : Env) (req : ScanRequest) (features : UrlFeatures),
    let result := genai_analysis env req features in
    (groq_client env = None -> result = fallback_unavailable)
    /\ (forall client : Client,
          groq_client env = Some client ->
          match client (make_payload req features) with
          | Raise e => result = fallback_error e
          | Ok None => result = fallback_error none_content_error
          | Ok (Some text) =>
              match json_loads env text with
              | Ok (JDict d) => result = JDict d
              | Ok _ => True
              | Raise e =>
                  match Re.search brace_pattern text with
                  | None => result = fallback_error e
                  | Some block =>
                      match json_loads env block with
                      | Ok (JDict d) => result = JDict d
                      | Ok _ => True
                      | Raise e' => result = fallback_error e'
                      end
                  end
              end
          end)
    /\ all_four_fields fallback_unavailable = true
    /\ (forall e : Exn, all_four_fields (fallback_error e) = true).
Proof.
  intros env req features result. subst result. unfold genai_analysis.
  split; [| split; [| split]].
  - intros ->. reflexivity.
  - intros client ->. cbv zeta.
    destruct (client (make_payload req features)) as [[text |] | e];
      unfold bind, recover_json; try reflexivity.
    destruct (json_loads env text) as [v | e].
    + destruct v; exact I || reflexivity.
    + destruct (Re.search brace_pattern text) as [block |]; [| reflexivity].
      destruct (json_loads env block) as [v | e']; [| reflexivity].
      destruct v; exact I || reflexivity.
  - reflexivity.
  - intros e. reflexivity.
Qed.

(** ** Comparisons of floats

    Python's [>=] and [<] on floats are IEEE 754 comparisons: each is
    false as soon as an operand is NaN. *)

Lemma SFcompare_antisym :
  forall x y : spec_float, SFcompare y x = option_map CompOpp (SFcompare x y).
Proof.
  intros [sx | sx | | sx mx ex] [sy | sy | | sy my ey]; cbn [SFcompare option_map];
    try reflexivity;
    try (destruct sx; reflexivity);
    try (destruct sy; reflexivity);
    try (destruct sx, sy; reflexivity).
  destruct sx, sy; cbn [CompOpp]; try reflexivity;
    rewrite (Z.compare_antisym ex ey); destruct (ex ?= ey)%Z; cbn [CompOpp];
    try reflexivity; f_equal;
    change (Pos.compare_cont Eq my mx) with (Pos.compare my mx);
    change (Pos.compare_cont Eq mx my) with (Pos.compare mx my);
    rewrite (Pos.compare_antisym mx my); destruct (mx ?= my)%positive; reflexivity.
Qed.

Lemma SFcompare_refl :
  forall x : spec_float, x <> S754_nan -> SFcompare x x = Some Eq.
Proof.
  intros [s | s | | s m e] H; cbn [SFcompare]; try (destruct s; reflexivity).
  - congruence.
  - rewrite Z.compare_refl.
    change (Pos.compare_cont Eq m m) with (Pos.compare m m).
    rewrite Pos.compare_refl. destruct s; reflexivity.
Qed.

Lemma is_nan_Prim2SF :
  forall f : float, is_nan f = true <-> Prim2SF f = S754_nan.
Proof.
  intros f. unfold is_nan. rewrite FloatAxioms.eqb_spec. unfold SFeqb. split.
  - intros H. destruct (Prim2SF f) eqn:E; try reflexivity;
      rewrite SFcompare_refl in H by discriminate; discriminate H.
  - intros ->. reflexivity.
Qed.

(** Only NaN is unordered. *)
Lemma SFcompare_none :
  forall x y : spec_float,
    x <> S754_nan -> (SFcompare x y = None <-> y = S754_nan).
Proof.
  intros [sx | sx | | sx mx ex] [sy | sy | | sy my ey] Hx; cbn [SFcompare];
    split; intros H; try reflexivity; try discriminate H; congruence.
Qed.

(** [c >= f] fails exactly when [f < c] or [f] is NaN, for [c] not NaN. *)
Lemma leb_false_iff :
  forall c f : float,
    is_nan c = false ->
    (c <=? f)%float = false <-> ((f <? c)%float = true \/ is_nan f = true).
Proof.
  intros c f Hc.
  rewrite FloatAxioms.leb_spec, FloatAxioms.ltb_spec, is_nan_Prim2SF.
  assert (Hc' : Prim2SF c <> S754_nan).
  { intros E. apply is_nan_Prim2SF in E. congruence. }
  unfold SFleb, SFltb. rewrite (SFcompare_antisym (Prim2SF c) (Prim2SF f)).
  pose proof (SFcompare_none (Prim2SF c) (Prim2SF f) Hc') as Hnone.
  destruct (SFcompare (Prim2SF c) (Prim2SF f)) as [[| |] |]; cbn [option_map CompOpp].
  - split; [discriminate |]. intros [H | H]; [discriminate H |].
    apply Hnone in H. discriminate H.
  - split; [discriminate |]. intros [H | H]; [discriminate H |].
    apply Hnone in H. discriminate H.
  - split; [left; reflexivity | reflexivity].
  - split; [right; now apply Hnone | reflexivity].
Qed.

(** An operand of a true comparison is not NaN. *)
Lemma leb_true_not_nan :
  forall c f : float, (c <=? f)%float = true -> is_nan f = false.
Proof.
  intros c f H. destruct (is_nan f) eqn:E; [| reflexivity].
  apply is_nan_Prim2SF in E. rewrite FloatAxioms.leb_spec, E in H.
  unfold SFleb in H. destruct (Prim2SF c); discriminate H.
Qed.

(** Whatever is at least 75 is at least 45. *)
Lemma leb_75_45 :
  forall f : float, (75 <=? f)%float = true -> (45 <=? f)%float = true.
Proof.
  intros f. rewrite !FloatAxioms.leb_spec.
  change (Prim2SF 75) with (S754_finite false 5277655813324800 (-46)).
  change (Prim2SF 45) with (S754_finite false 6333186975989760 (-47)).
  unfold SFleb, SFcompare.
  destruct (Prim2SF f) as [s | s | | s m e].
  - intros H; discriminate H.
  - destruct s; intros H; (exact H || reflexivity).
  - intros H; discriminate H.
  - destruct s; [intros H; discriminate H |].
    destruct (Z.compare_spec (-46) e), (Z.compare_spec (-47) e);
      try lia; intros H; (reflexivity || discriminate H).
Qed.

(** ** Fusion and the route *)

Lemma validate_str_list_ok :
  forall (l : list JSON) (strs : list string),
    validate_str_list l = Ok strs -> l = map JStr strs.
Proof.
  induction l as [| v l IH]; intros strs H; cbn [validate_str_list] in H.
  - injection H as <-. reflexivity.
  - destruct v; try discriminate H.
    unfold bind in H. destruct (validate_str_list l) as [rest |]; [| discriminate H].
    injection H as <-. cbn [map]. now rewrite (IH rest eq_refl).
Qed.

(** What a run of [scan] that returns a response has gone through. *)
Lemma scan_ok_inv :
  forall (env : Env) (req : ScanRequest) (r : ScanResponse),
    scan env req = Ok r ->
    let features := get_url_features env (url req) in
    let genai := genai_analysis env req features in
    exists (score : JSON) (top : list JSON),
      dict_get genai "genai_score" (JInt 50) = Ok score
      /\ py_float env score = Ok (genai_score r)
      /\ int_to_float (fst (ml_score_calc features)) = Ok (ml_score r)
      /\ dict_get genai "top_reasons" (JList []) = Ok (JList top)
      /\ map JStr (reasons r) = firstn 6 (map JStr (snd (ml_score_calc features)) ++ top)
      /\ verdict r = verdict_of (final_score (ml_score r) (genai_score r))
      /\ risk_score r = PyFloat.round2 (final_score (ml_score r) (genai_score r))
      /\ resp_url r = url req
      /\ signals r = features
      /\ genai_summary r = genai.
Proof.
  intros env req r H features genai. unfold scan in H.
  fold features in H. destruct (ml_score_calc features) as [ml_int ml_reasons].
  fold genai in H. unfold bind in H.
  destruct (dict_get genai "genai_score" (JInt 50)) as [score |] eqn:Hscore; [| discriminate H].
  destruct (py_float env score) as [gs |] eqn:Hgs; [| discriminate H].
  destruct (int_to_float ml_int) as [ml |] eqn:Hml; [| discriminate H].
  destruct (dict_get genai "top_reasons" (JList [])) as [top |] eqn:Htop; [| discriminate H].
  destruct top as [| | | | | top |]; cbn [list_concat] in H; try discriminate H.
  destruct (validate_str_list _) as [strs |] eqn:Hv; [| discriminate H].
  injection H as <-. exists score, top.
  cbn [fst snd genai_score ml_score reasons verdict risk_score resp_url signals genai_summary].
  apply validate_str_list_ok in Hv. auto 12.
Qed.

(** C2 fails as stated: with a NaN classifier score, which [json.loads]
    accepts, the final score is NaN; the verdict is SAFE although the
    final score is not below 45. *)
Lemma nan_score_is_safe :
  verdict_of (final_score 0 nan) = "SAFE"
  /\ (final_score 0 nan <? 45)%float = false
  /\ response_field verdict
       (scan (sample_env (Some (reply (dq "{`genai_score`: NaN}"))))
             (request "https://example.com/")) = Some "SAFE"
  /\ response_field genai_score
       (scan (sample_env (Some (reply (dq "{`genai_score`: NaN}"))))
             (request "https://example.com/")) = Some nan.
Proof. vm_compute. repeat split. Qed.

(** C2, amended: the final score is [0.45 * ml_score + 0.55 *
    genai_score] in binary64 arithmetic; the verdict is PHISHING exactly
    when it is at least 75, SUSPICIOUS exactly when it is at least 45 and
    below 75, and SAFE in every other case, that is when it is below 45 or
    is NaN; the risk score is the final score rounded to two decimals.
    The four pairs of the specification give the stated results. *)
Theorem fusion_verdict_and_risk :
  (forall ml g : float,
      let f := final_score ml g in
      f = (0.45 * ml + 0.55 * g)%float
      /\ (verdict_of f = "PHISHING" <-> (75 <=? f)%float = true)
      /\ (verdict_of f = "SUSPICIOUS" <-> (45 <=? f)%float = true /\ (f <? 75)%float = true)
      /\ (verdict_of f = "SAFE" <-> (f <? 45)%float = true \/ is_nan f = true))
  /\ (forall (env : Env) (req : ScanRequest) (r : ScanResponse),
        scan env req = Ok r ->
        verdict r = verdict_of (final_score (ml_score r) (genai_score r))
        /\ risk_score r = PyFloat.round2 (final_score (ml_score r) (genai_score r)))
  /\ (PyFloat.round2 (final_score 0 0) = 0%float /\ verdict_of (final_score 0 0) = "SAFE")
  /\ (PyFloat.round2 (final_score 100 100) = 100%float
      /\ verdict_of (final_score 100 100) = "PHISHING")
  /\ (PyFloat.round2 (final_score 20 50) = 36.5%float /\ verdict_of (final_score 20 50) = "SAFE")
  /\ (PyFloat.round2 (final_score 60 60) = 60%float
      /\ verdict_of (final_score 60 60) = "SUSPICIOUS").
Proof.
  split; [| split].
  - intros ml g f. split; [reflexivity |]. clearbody f. unfold verdict_of.
    assert (H75 := leb_false_iff 75 f eq_refl).
    assert (H45 := leb_false_iff 45 f eq_refl).
    destruct (75 <=? f)%float eqn:E75.
    + assert (E45 := leb_75_45 f E75). rewrite E45 in H45.
      split; [split; reflexivity |].
      split; (split; [discriminate |]).
      * intros [_ H]. pose proof (proj2 H75 (or_introl H)) as X. discriminate X.
      * intros H. pose proof (proj2 H45 H) as X. discriminate X.
    + destruct (45 <=? f)%float eqn:E45.
      * assert (Hnan := leb_true_not_nan 45 f E45).
        split; [split; discriminate |].
        split.
        -- split; [intros _; split; [reflexivity |] | reflexivity].
           destruct (proj1 H75 eq_refl) as [H | H]; [exact H | congruence].
        -- split; [discriminate |].
           intros H. pose proof (proj2 H45 H) as X. discriminate X.
      * split; [split; discriminate |].
        split; [split; [discriminate | intros [H _]; discriminate H] |].
        split; [intros _; exact (proj1 H45 eq_refl) | reflexivity].
  - intros env req r H. destruct (scan_ok_inv env req r H) as (score & top & Hinv).
    split; apply Hinv.
  - vm_compute. repeat split.
Qed.

Lemma fusion_verdict_and_risk_witness :
  scan (sample_env (Some (reply reply_safe))) (request "https://example.com/") = Ok response_safe
  /\ verdict response_safe
     = verdict_of (final_score (ml_score response_safe) (genai_score response_safe))
  /\ risk_score response_safe
     = PyFloat.round2 (final_score (ml_score response_safe) (genai_score response_safe)).
Proof.
  split; [vm_compute; reflexivity |].
  apply (proj1 (proj2 fusion_verdict_and_risk)
           (sample_env (Some (reply reply_safe))) (request "https://example.com/")).
  vm_compute. reflexivity.
Defined.

(** C6: the reasons of a response are the heuristic reasons, in rule
    order, followed by the classifier's [top_reasons] in their order, cut
    to the first six entries; nothing is removed, so a reason found in
    both lists appears twice, and the list never has more than six
    entries. *)
Theorem scan_reasons :
  (forall (env : Env) (req : ScanRequest) (r : ScanResponse),
      scan env req = Ok r ->
      let features := get_url_features env (url req) in
      exists top : list JSON,
        dict_get (genai_analysis env req features) "top_reasons" (JList []) = Ok (JList top)
        /\ map JStr (reasons r) = firstn 6 (map JStr (snd (ml_score_calc features)) ++ top)
        /\ List.length (reasons r) <= 6)
  /\ response_field reasons
       (scan (sample_env (Some (reply (dq "{`top_reasons`: [`HTTPS not used`]}"))))
             (request "http://example.com/"))
     = Some ["HTTPS not used"; "HTTPS not used"]
  /\ response_field reasons
       (scan (sample_env (Some (reply (dq "{`top_reasons`: [`a`, `b`, `c`, `d`, `e`, `f`, `g`]}"))))
             (request "http://example.com/"))
     = Some ["HTTPS not used"; "a"; "b"; "c"; "d"; "e"].
Proof.
  split; [| split].
  - intros env req r H features.
    destruct (scan_ok_inv env req r H) as (score & top & _ & _ & _ & Htop & Hreasons & _).
    exists top. split; [exact Htop |]. split; [exact Hreasons |].
    rewrite <- (length_map JStr), Hreasons. apply firstn_le_length.
  - vm_compute. reflexivity.
  - vm_compute. reflexivity.
Qed.

Lemma scan_reasons_witness :
  scan (sample_env (Some (reply reply_phishing))) (request "https://example.com/")
  = Ok response_phishing
  /\ exists top : list JSON,
       dict_get (genai_analysis (sample_env (Some (reply reply_phishing)))
                   (request "https://example.com/")
                   (get_url_features (sample_env (Some (reply reply_phishing)))
                      "https://example.com/"))
         "top_reasons" (JList []) = Ok (JList top)
       /\ map JStr (reasons response_phishing)
          = firstn 6 (map JStr (snd (ml_score_calc
                                       (get_url_features (sample_env (Some (reply reply_phishing)))
                                          "https://example.com/"))) ++ top)
       /\ List.length (reasons response_phishing) <= 6.
Proof.
  split; [vm_compute; reflexivity |].
  apply (proj1 scan_reasons
           (sample_env (Some (reply reply_phishing))) (request "https://example.com/")).
  vm_compute. reflexivity.
Defined.

(** C7: the classifier's score enters fusion as [float] makes it, with no
    clamping: the response's [genai_score] is [float] of the value under
    ["genai_score"], or of the default 50 when the key is missing, and the
    risk score and the verdict are computed from it as it is.  A reply
    with score 200 on a URL with heuristic score 0 gives risk score 110
    and PHISHING; score -50 gives a negative risk score. *)
Theorem fusion_does_not_clamp :
  (forall (env : Env) (req : ScanRequest) (r : ScanResponse),
      scan env req = Ok r ->
      exists d : list (string * JSON),
        genai_analysis env req (get_url_features env (url req)) = JDict d
        /\ py_float env (match dict_lookup d "genai_score" with
                         | Some v => v
                         | None => JInt 50
                         end) = Ok (genai_score r)
        /\ (dict_lookup d "genai_score" = None -> genai_score r = 50%float)
        /\ risk_score r = PyFloat.round2 (0.45 * ml_score r + 0.55 * genai_score r)%float
        /\ verdict r = verdict_of (0.45 * ml_score r + 0.55 * genai_score r)%float)
  /\ (let run := scan (sample_env (Some (reply (dq "{`genai_score`: 200}"))))
                      (request "https://example.com/") in
      response_field ml_score run = Some 0%float
      /\ response_field genai_score run = Some 200%float
      /\ response_field risk_score run = Some 110%float
      /\ response_field verdict run = Some "PHISHING"
      /\ (100 <? 110)%float = true)
  /\ (let run := scan (sample_env (Some (reply (dq "{`genai_score`: -50}"))))
                      (request "https://example.com/") in
      response_field genai_score run = Some (-50)%float
      /\ response_field risk_score run = Some (-27.5)%float
      /\ (-27.5 <? 0)%float = true)
  /\ (let run := scan (sample_env (Some (reply (dq "{`verdict`: `SAFE`}"))))
                      (request "https://example.com/") in
      response_field genai_score run = Some 50%float).
Proof.
  split; [| split; [| split]].
  - intros env req r H.
    destruct (scan_ok_inv env req r H)
      as (score & top & Hscore & Hfloat & _ & _ & _ & Hverdict & Hrisk & _).
    destruct (genai_analysis env req (get_url_features env (url req))) as [| | | | | | d];
      try discriminate Hscore.
    exists d. cbn [dict_get] in Hscore. injection Hscore as <-.
    repeat split; try assumption.
    intros Hnone. rewrite Hnone in Hfloat. cbn in Hfloat. congruence.
  - vm_compute. repeat split.
  - vm_compute. repeat split.
  - vm_compute. reflexivity.
Qed.

Lemma fusion_does_not_clamp_witness :
  scan (sample_env (Some (reply reply_safe))) (request "https://example.com/") = Ok response_safe
  /\ exists d : list (string * JSON),
       genai_analysis (sample_env (Some (reply reply_safe))) (request "https://example.com/")
         (get_url_features (sample_env (Some (reply reply_safe))) "https://example.com/")
       = JDict d
       /\ py_float (sample_env (Some (reply reply_safe)))
            (match dict_lookup d "genai_score" with
             | Some v => v
             | None => JInt 50
             end) = Ok (genai_score response_safe)
       /\ (dict_lookup d "genai_score" = None -> genai_score response_safe = 50%float)
       /\ risk_score response_safe
          = PyFloat.round2 (0.45 * ml_score response_safe + 0.55 * genai_score response_safe)%float
       /\ verdict response_safe
          = verdict_of (0.45 * ml_score response_safe + 0.55 * genai_score response_safe)%float.
Proof.
  split; [vm_compute; reflexivity |].
  apply (proj1 fusion_does_not_clamp
           (sample_env (Some (reply reply_safe))) (request "https://example.com/")).
  vm_compute. reflexivity.
Defined.

(** C8: the verdict and the risk score of a response are functions of
    its [ml_score] and [genai_score] alone.  Two runs on the same request
    whose classifier results carry the same score get the same risk score
    and verdict, whatever verdict hint, reasons or notes the classifier
    gave; each response keeps its classifier result whole in
    [genai_summary]. *)
Theorem verdict_hint_is_discarded :
  forall (env env' : Env) (req : ScanRequest) (r r' : ScanResponse),
    tld_extract env (url req) = tld_extract env' (url req) ->
    scan env req = Ok r ->
    scan env' req = Ok r' ->
    genai_score r = genai_score r' ->
    risk_score r = risk_score r'
    /\ verdict r = verdict r'
    /\ verdict r = verdict_of (final_score (ml_score r) (genai_score r))
    /\ risk_score r = PyFloat.round2 (final_score (ml_score r) (genai_score r))
    /\ genai_summary r = genai_analysis env req (get_url_features env (url req))
    /\ genai_summary r' = genai_analysis env' req (get_url_features env' (url req)).
Proof.
  intros env env' req r r' Htld H H' Hscore.
  destruct (scan_ok_inv env req r H)
    as (s & t & _ & _ & Hml & _ & _ & Hverdict & Hrisk & _ & _ & Hsummary).
  destruct (scan_ok_inv env' req r' H')
    as (s' & t' & _ & _ & Hml' & _ & _ & Hverdict' & Hrisk' & _ & _ & Hsummary').
  assert (Hfeatures : get_url_features env' (url req) = get_url_features env (url req)).
  { unfold get_url_features. now rewrite Htld. }
  rewrite Hfeatures in Hml'.
  assert (Hsame : ml_score r = ml_score r') by congruence.
  repeat split; try assumption.
  - rewrite Hrisk, Hrisk', Hsame, Hscore. reflexivity.
  - rewrite Hverdict, Hverdict', Hsame, Hscore. reflexivity.
Qed.

Lemma verdict_hint_is_discarded_witness :
  scan (sample_env (Some (reply reply_safe))) (request "https://example.com/") = Ok response_safe
  /\ scan (sample_env (Some (reply reply_phishing))) (request "https://example.com/")
     = Ok response_phishing
  /\ genai_summary response_safe <> genai_summary response_phishing
  /\ risk_score response_safe = risk_score response_phishing
  /\ verdict response_safe = verdict response_phishing.
Proof.
  split; [vm_compute; reflexivity |].
  split; [vm_compute; reflexivity |].
  split; [discriminate |].
  destruct (verdict_hint_is_discarded
              (sample_env (Some (reply reply_safe)))
              (sample_env (Some (reply reply_phishing)))
              (request "https://example.com/") response_safe response_phishing
              eq_refl eq_refl eq_refl eq_refl) as (Hrisk & Hverdict & _).
  exact (conj Hrisk Hverdict).
Defined.

(** ** The always-answer contract *)

Lemma validate_str_list_strs :
  forall strs : list string, validate_str_list (map JStr strs) = Ok strs.
Proof.
  induction strs as [| s strs IH]; cbn [map validate_str_list]; [reflexivity |].
  now rewrite IH.
Qed.

(** The heuristic score always converts to a float. *)
Lemma ml_score_converts :
  forall f : UrlFeatures, exists x : float, int_to_float (fst (ml_score_calc f)) = Ok x.
Proof.
  intros f. unfold ml_score_calc, rule.
  destruct (looks_like_ip f), (suspicious_tld f), (70 <? url_length f)%nat,
    (3 <=? num_hyphens f)%nat, (has_https f);
    eexists; vm_compute; reflexivity.
Qed.

(** Whenever the adapter falls back, [scan] returns a response, with the
    neutral score 50 and the fallback dict as its summary. *)
Lemma scan_answers_after_fallback :
  forall (env : Env) (req : ScanRequest),
    let genai := genai_analysis env req (get_url_features env (url req)) in
    genai = fallback_unavailable \/ (exists e : Exn, genai = fallback_error e) ->
    exists r : ScanResponse,
      scan env req = Ok r /\ genai_score r = 50%float /\ genai_summary r = genai.
Proof.
  intros env req genai Hfallback. unfold scan. fold genai.
  destruct (ml_score_converts (get_url_features env (url req))) as [ml Hml].
  destruct (ml_score_calc (get_url_features env (url req))) as [ml_int ml_reasons].
  cbn [fst] in Hml.
  assert (Hshape : exists reason : string,
             dict_get genai "genai_score" (JInt 50) = Ok (JInt 50)
             /\ dict_get genai "top_reasons" (JList []) = Ok (JList [JStr reason])).
  { destruct Hfallback as [-> | [e ->]]; eexists; split; reflexivity. }
  destruct Hshape as (reason & -> & ->).
  unfold bind. cbn [py_float]. 
  change (PyFloat.of_int 50) with (Some 50%float). cbv iota. rewrite Hml.
  cbn [list_concat].
  replace (map JStr ml_reasons ++ [JStr reason]) with (map JStr (ml_reasons ++ [reason]))
    by (rewrite map_app; reflexivity).
  rewrite firstn_map, validate_str_list_strs.
  eexists. split; [reflexivity |]. split; reflexivity.
Qed.

(** C1: the claim holds of the adapter's fallbacks but not of the route.
    A reply that is valid JSON and not an object is returned as it is, and
    [scan] then raises on [genai.get]: no [ScanResponse] is produced. *)
Theorem scan_raises_on_non_object_reply :
  let env := sample_env (Some (reply "[1, 2]")) in
  genai_analysis env (request "https://example.com/")
    (get_url_features env "https://example.com/") = JList [JInt 1%Z; JInt 2%Z]
  /\ scan env (request "https://example.com/") = Raise AttributeError.
Proof. vm_compute. split; reflexivity. Qed.

(** A client that raises is answered with the fallback, and [scan] still
    returns a response. *)
Example failing_client_falls_back :
  let e := mkExn ServiceError "model decommissioned" in
  let env := sample_env (Some (failing_client e)) in
  genai_analysis env (request "https://example.com/") example_features = fallback_error e
  /\ response_field genai_score (scan env (request "https://example.com/")) = Some 50%float
  /\ response_field reasons (scan env (request "https://example.com/"))
     = Some ["GenAI fallback: model decommissioned"].
Proof. vm_compute. repeat split. Qed.

(** * Further properties *)

(** ** [is_ip] *)

(** A greedy bounded repetition of [\d] succeeds exactly when some run of
    [lo] to [hi] digits can be taken off so that the rest is accepted. *)
Lemma rep_digit_spec :
  forall (A : Type) (k : string -> option A) (hi lo : nat) (s : string),
    Re.rep_loop (Re.run Re.Digit) k lo hi s <> None
    <-> exists g rest : string,
          s = (g ++ rest)%string /\ all_digits g = true
          /\ lo <= String.length g <= hi /\ k rest <> None.
Proof.
  intros A k. induction hi as [| hi IH]; intros lo s; cbn [Re.rep_loop].
  - destruct (Nat.eqb_spec lo 0) as [-> | Hlo].
    + split.
      * intros H. exists EmptyString, s. cbn. repeat split; auto.
      * intros ([| c g] & rest & -> & _ & Hlen & Hk); [exact Hk | cbn in Hlen; lia].
    + split; [congruence |].
      intros (g & rest & _ & _ & Hlen & _). lia.
  - assert (Hbody : forall k' : string -> option A,
               Re.run Re.Digit s k'
               = match s with
                 | String c r => if PyFloat.is_digit c then k' r else None
                 | EmptyString => None
                 end) by reflexivity.
    rewrite Hbody. split.
    + intros H.
      destruct s as [| c r].
      * destruct (Nat.eqb_spec lo 0) as [-> | Hlo]; [| congruence].
        exists EmptyString, EmptyString. cbn. repeat split; auto; lia.
      * destruct (PyFloat.is_digit c) eqn:Hc.
        -- destruct (Re.rep_loop (Re.run Re.Digit) k (pred lo) hi r) eqn:E.
           ++ assert (Hne : Re.rep_loop (Re.run Re.Digit) k (pred lo) hi r <> None)
                by (rewrite E; discriminate).
              apply IH in Hne as (g & rest & -> & Hg & Hlen & Hk).
              exists (String c g), rest. cbn [append all_digits String.length].
              rewrite Hc, Hg. repeat split; auto; lia.
           ++ destruct (Nat.eqb_spec lo 0) as [-> | Hlo]; [| congruence].
              exists EmptyString, (String c r). cbn. repeat split; auto; lia.
        -- destruct (Nat.eqb_spec lo 0) as [-> | Hlo]; [| congruence].
           exists EmptyString, (String c r). cbn. repeat split; auto; lia.
    + intros (g & rest & -> & Hg & Hlen & Hk).
      destruct g as [| c g]; cbn [append all_digits String.length] in *.
      * assert (lo = 0) as -> by lia. cbn [Nat.eqb].
        destruct rest as [| c r]; [exact Hk |].
        destruct (PyFloat.is_digit c); [| exact Hk].
        destruct (Re.rep_loop _ _ _ _ r); [discriminate | exact Hk].
      * apply andb_prop in Hg as [Hc Hg]. rewrite Hc.
        assert (Hne : Re.rep_loop (Re.run Re.Digit) k (pred lo) hi (g ++ rest) <> None).
        { apply IH. exists g, rest. repeat split; auto; lia. }
        destruct (Re.rep_loop (Re.run Re.Digit) k (pred lo) hi (g ++ rest));
          [discriminate | congruence].
Qed.

(** [\d{1,3}] *)
Lemma group_spec :
  forall (A : Type) (k : string -> option A) (s : string),
    Re.run (Re.Rep Re.Digit 1 3) s k <> None
    <-> exists g rest : string,
          s = (g ++ rest)%string /\ is_group g = true /\ k rest <> None.
Proof.
  intros A k s. change (Re.run (Re.Rep Re.Digit 1 3) s k)
    with (Re.rep_loop (Re.run Re.Digit) k 1 3 s).
  rewrite rep_digit_spec. unfold is_group.
  split; intros (g & rest & Hs & H); exists g, rest; (split; [exact Hs |]).
  - destruct H as (Hg & Hlen & Hk). split; [| exact Hk].
    rewrite Hg, (proj2 (Nat.leb_le _ _)), (proj2 (Nat.leb_le _ _)) by lia. reflexivity.
  - destruct H as (Hg & Hk).
    apply andb_prop in Hg as [Hlen Hg]. apply andb_prop in Hlen as [H1 H3].
    apply Nat.leb_le in H1, H3. auto.
Qed.

(** [\.\d{1,3}] *)
Lemma dot_group_spec :
  forall (A : Type) (k : string -> option A) (s : string),
    Re.run (Re.Cat (Re.Lit ".") (Re.Rep Re.Digit 1 3)) s k <> None
    <-> exists g rest : string,
          s = String "." (g ++ rest) /\ is_group g = true /\ k rest <> None.
Proof.
  intros A k s.
  assert (Hcat : Re.run (Re.Cat (Re.Lit ".") (Re.Rep Re.Digit 1 3)) s k
                 = match s with
                   | String c r => if Ascii.eqb "." c then Re.run (Re.Rep Re.Digit 1 3) r k
                                   else None
                   | EmptyString => None
                   end) by reflexivity.
  rewrite Hcat. destruct s as [| c r].
  - split; [congruence | intros (g & rest & H & _); discriminate H].
  - destruct (Ascii.eqb_spec "." c) as [<- | Hc].
    + rewrite group_spec. split; intros (g & rest & Hs & H); exists g, rest.
      * now rewrite Hs.
      * injection Hs as ->. auto.
    + split; [congruence |]. intros (g & rest & Hs & _). injection Hs as Hs _. congruence.
Qed.

(** An exact repetition [r{n+1}] is one [r] followed by [r{n}]. *)
Lemma rep_exact_step :
  forall (A : Type) (body : string -> (string -> option A) -> option A)
         (k : string -> option A) (n : nat) (s : string),
    Re.rep_loop body k (S n) (S n) s = body s (Re.rep_loop body k n n).
Proof.
  intros A body k n s. cbn [Re.rep_loop Nat.eqb pred].
  destruct (body s (Re.rep_loop body k n n)); reflexivity.
Qed.

Lemma append_empty_r : forall s : string, (s ++ EmptyString)%string = s.
Proof.
  induction s as [| c s IH]; cbn [append]; [reflexivity | now rewrite IH].
Qed.

(** The continuation of [re.fullmatch]: nothing may be left. *)
Lemma ip_pattern_matches :
  forall h : string,
    Re.run ip_pattern h (fun rest => match rest with
                                     | EmptyString => Some tt
                                     | String _ _ => None
                                     end) <> None
    <-> exists a b c d : string,
          h = (a ++ "." ++ b ++ "." ++ c ++ "." ++ d)%string
          /\ is_group a = true /\ is_group b = true
          /\ is_group c = true /\ is_group d = true.
Proof.
  intros h.
  set (kend := fun rest : string => match rest with
                                    | EmptyString => Some tt
                                    | String _ _ => None
                                    end).
  set (body := Re.run (Re.Cat (Re.Lit ".") (Re.Rep Re.Digit 1 3)) (A := unit)).
  assert (Hrun : Re.run ip_pattern h kend
                 = Re.run (Re.Rep Re.Digit 1 3) h (Re.rep_loop body kend 3 3)) by reflexivity.
  assert (Hend : forall s, Re.rep_loop body kend 0 0 s <> None <-> s = EmptyString).
  { intros [| c s]; cbn; split; congruence. }
  assert (Hstep : forall n s,
             Re.rep_loop body kend (S n) (S n) s <> None
             <-> exists g rest, s = String "." (g ++ rest) /\ is_group g = true
                                /\ Re.rep_loop body kend n n rest <> None).
  { intros n s. rewrite rep_exact_step. apply dot_group_spec. }
  rewrite Hrun, group_spec. cbn [append]. split.
  - intros (a & r1 & -> & Ha & H3).
    apply Hstep in H3 as (b & r2 & -> & Hb & H2).
    apply Hstep in H2 as (c & r3 & -> & Hc & H1).
    apply Hstep in H1 as (d & r4 & -> & Hd & H0).
    apply Hend in H0 as ->. rewrite append_empty_r.
    exists a, b, c, d. auto.
  - intros (a & b & c & d & -> & Ha & Hb & Hc & Hd).
    exists a, (String "." (b ++ String "." (c ++ String "." d))).
    split; [reflexivity |]. split; [exact Ha |].
    apply Hstep. exists b, (String "." (c ++ String "." d)). repeat split; auto.
    apply Hstep. exists c, (String "." d). repeat split; auto.
    apply Hstep. exists d, EmptyString. rewrite append_empty_r. repeat split; auto.
    now apply Hend.
Qed.

(** X1: [is_ip] accepts exactly the texts made of four groups of one to
    three ASCII digits separated by single dots; the groups are not
    checked against 255, so [999.999.999.999] is accepted. *)
Theorem is_ip_iff_four_groups :
  (forall h : string,
      is_ip h = true
      <-> exists a b c d : string,
            h = (a ++ "." ++ b ++ "." ++ c ++ "." ++ d)%string
            /\ is_group a = true /\ is_group b = true
            /\ is_group c = true /\ is_group d = true)
  /\ is_ip "999.999.999.999" = true.
Proof.
  split; [| reflexivity].
  intros h. pose proof (ip_pattern_matches h) as Hiff.
  unfold is_ip, Re.fullmatch.
  destruct (Re.run ip_pattern h _) as [u |].
  - split; [intros _; apply Hiff; discriminate | reflexivity].
  - split; [discriminate |]. intros H. apply Hiff in H. congruence.
Qed.

Lemma count_append :
  forall (c : ascii) (a b : string), count c (a ++ b) = count c a + count c b.
Proof.
  intros c a b. induction a as [| x a IH]; cbn [append count]; [reflexivity | lia].
Qed.

Lemma count_in_digits :
  forall (c : ascii) (g : string),
    PyFloat.is_digit c = false -> all_digits g = true -> count c g = 0.
Proof.
  intros c g Hc. induction g as [| x g IH]; cbn [all_digits count]; [reflexivity |].
  intros H. apply andb_prop in H as [Hx Hg].
  destruct (Ascii.eqb_spec c x) as [-> | _]; [congruence |]. now rewrite IH.
Qed.

Lemma group_facts :
  forall g : string,
    is_group g = true -> all_digits g = true /\ 1 <= String.length g <= 3.
Proof.
  intros g H. unfold is_group in H.
  apply andb_prop in H as [H Hd]. apply andb_prop in H as [H1 H3].
  apply Nat.leb_le in H1, H3. auto.
Qed.

(** X2: a host that [is_ip] accepts has exactly three dots, no hyphen and
    between 7 and 15 characters. *)
Theorem is_ip_shape :
  forall h : string,
    is_ip h = true ->
    count "." h = 3 /\ count "-" h = 0 /\ 7 <= String.length h <= 15.
Proof.
  intros h H.
  assert (Hrun : Re.run ip_pattern h (fun rest => match rest with
                                                   | EmptyString => Some tt
                                                   | String _ _ => None
                                                   end) <> None).
  { unfold is_ip, Re.fullmatch in H. intros E. rewrite E in H. discriminate H. }
  apply ip_pattern_matches in Hrun.
  destruct Hrun as (a & b & c & d & -> & Ha & Hb & Hc & Hd).
  apply group_facts in Ha as [Da La], Hb as [Db Lb], Hc as [Dc Lc], Hd as [Dd Ld].
  cbn [append]. rewrite !count_append. cbn [count]. rewrite !count_append. cbn [count].
  rewrite !count_append. cbn [count].
  rewrite !(count_in_digits ".") by (assumption || reflexivity).
  rewrite !(count_in_digits "-") by (assumption || reflexivity).
  rewrite !length_append. cbn [String.length]. rewrite !length_append.
  cbn [String.length]. rewrite !length_append. cbn [String.length Ascii.eqb].
  cbn. lia.
Qed.

Lemma is_ip_shape_witness :
  is_ip "192.0.2.1" = true
  /\ count "." "192.0.2.1" = 3 /\ count "-" "192.0.2.1" = 0
  /\ 7 <= String.length "192.0.2.1" <= 15.
Proof.
  split; [reflexivity |]. apply is_ip_shape. reflexivity.
Defined.

(** ** Extracted features and their score *)

Lemma is_ip_no_hyphen :
  forall h : string, is_ip h = true -> count "-" h = 0.
Proof.
  intros h H.
  assert (Hrun : Re.run ip_pattern h (fun rest => match rest with
                                                   | EmptyString => Some tt
                                                   | String _ _ => None
                                                   end) <> None).
  { unfold is_ip, Re.fullmatch in H. intros E. rewrite E in H. discriminate H. }
  apply ip_pattern_matches in Hrun.
  destruct Hrun as (a & b & c & d & -> & Ha & Hb & Hc & Hd).
  apply group_facts in Ha as [Da _], Hb as [Db _], Hc as [Dc _], Hd as [Dd _].
  cbn [append]. rewrite !count_append. cbn [count]. rewrite !count_append. cbn [count].
  rewrite !count_append. cbn [count].
  rewrite !(count_in_digits "-") by (assumption || reflexivity).
  reflexivity.
Qed.

(** The IP rule excludes the hyphen rule on extracted features. *)
Lemma ip_excludes_hyphens :
  forall (env : Env) (u : string),
    looks_like_ip (get_url_features env u) = true ->
    (3 <=? num_hyphens (get_url_features env u))%nat = false.
Proof.
  intros env u. unfold get_url_features. cbn [looks_like_ip num_hyphens].
  intros H. now rewrite (is_ip_no_hyphen _ H).
Qed.

Lemma extracted_score_bound_aux :
  forall (env : Env) (u : string),
    (0 <= fst (ml_score_calc (get_url_features env u)) <= 55)%Z
    /\ List.length (snd (ml_score_calc (get_url_features env u))) <= 4.
Proof.
  intros env u. pose proof (ip_excludes_hyphens env u) as Hexcl.
  unfold ml_score_calc, rule.
  destruct (looks_like_ip (get_url_features env u)).
  - rewrite (Hexcl eq_refl).
    destruct (suspicious_tld _), (70 <? url_length _)%nat, (has_https _);
      cbn [fst snd negb app List.length]; split; lia.
  - destruct (suspicious_tld _), (70 <? url_length _)%nat,
      (3 <=? num_hyphens _)%nat, (has_https _);
      cbn [fst snd negb app List.length]; split; lia.
Qed.

(** X3: on the features [get_url_features] extracts, the IP rule and the
    hyphen rule never fire together, because a host that looks like an IP
    address has no hyphen.  So the heuristic score of a URL is at most 55
    (not 65), and at most four reasons are given. *)
Theorem extracted_score_bound :
  forall (env : Env) (u : string),
    let f := get_url_features env u in
    (looks_like_ip f = true -> (3 <=? num_hyphens f)%nat = false)
    /\ (0 <= fst (ml_score_calc f) <= 55)%Z
    /\ List.length (snd (ml_score_calc f)) <= 4.
Proof.
  intros env u f. subst f. split; [apply ip_excludes_hyphens |].
  apply extracted_score_bound_aux.
Qed.

(** ** Reasons and verdict of a response *)

Lemma map_JStr_split :
  forall (b a : list string) (c : list JSON),
    map JStr a = map JStr b ++ c ->
    exists kept : list string, a = b ++ kept /\ map JStr kept = c.
Proof.
  induction b as [| x b IH]; intros a c H; cbn [map app] in H.
  - exists a. auto.
  - destruct a as [| y a]; [discriminate H |]. cbn [map] in H.
    injection H as Hxy H. subst y.
    destruct (IH a c H) as (kept & -> & Hk). exists kept. auto.
Qed.

(** X4: truncation to six entries never costs a heuristic reason: the
    response's reasons start with all the heuristic reasons, followed by
    the first [6 - n] classifier reasons, [n] being the number of heuristic
    reasons, which is at most four; so the first two classifier reasons
    are always kept. *)
Theorem heuristic_reasons_kept :
  forall (env : Env) (req : ScanRequest) (r : ScanResponse),
    scan env req = Ok r ->
    let f := get_url_features env (url req) in
    let ml_reasons := snd (ml_score_calc f) in
    exists (top : list JSON) (kept : list string),
      dict_get (genai_analysis env req f) "top_reasons" (JList []) = Ok (JList top)
      /\ reasons r = ml_reasons ++ kept
      /\ map JStr kept = firstn (6 - List.length ml_reasons) top
      /\ Nat.min 2 (List.length top) <= List.length kept.
Proof.
  intros env req r H f ml_reasons.
  destruct (scan_ok_inv env req r H) as (score & top & _ & _ & _ & Htop & Hreasons & _).
  fold f in Htop, Hreasons. fold ml_reasons in Hreasons.
  assert (Hlen : List.length ml_reasons <= 4).
  { destruct (extracted_score_bound_aux env (url req)) as [_ Hl]. exact Hl. }
  rewrite firstn_app, length_map in Hreasons.
  rewrite (firstn_all2 (map JStr ml_reasons)) in Hreasons by (rewrite length_map; lia).
  destruct (map_JStr_split _ _ _ Hreasons) as (kept & Hr & Hk).
  exists top, kept. repeat split; auto.
  rewrite <- (length_map JStr kept), Hk, length_firstn. lia.
Qed.

Lemma heuristic_reasons_kept_witness :
  scan (sample_env (Some (reply reply_phishing))) (request "https://example.com/")
  = Ok response_phishing
  /\ exists (top : list JSON) (kept : list string),
       dict_get (genai_analysis (sample_env (Some (reply reply_phishing)))
                   (request "https://example.com/")
                   (get_url_features (sample_env (Some (reply reply_phishing)))
                      "https://example.com/"))
         "top_reasons" (JList []) = Ok (JList top)
       /\ reasons response_phishing
          = snd (ml_score_calc (get_url_features (sample_env (Some (reply reply_phishing)))
                                  "https://example.com/")) ++ kept
       /\ map JStr kept
          = firstn (6 - List.length
                          (snd (ml_score_calc
                                  (get_url_features (sample_env (Some (reply reply_phishing)))
                                     "https://example.com/")))) top
       /\ Nat.min 2 (List.length top) <= List.length kept.
Proof.
  split; [vm_compute; reflexivity |].
  apply (heuristic_reasons_kept
           (sample_env (Some (reply reply_phishing))) (request "https://example.com/")).
  vm_compute. reflexivity.
Defined.

(** With the neutral score 50 the verdict depends on the heuristic score
    alone, and turns SUSPICIOUS at 40. *)
Lemma neutral_verdict :
  forall f : UrlFeatures,
    exists x : float,
      int_to_float (fst (ml_score_calc f)) = Ok x
      /\ verdict_of (final_score x 50)
         = if (40 <=? fst (ml_score_calc f))%Z then "SUSPICIOUS" else "SAFE".
Proof.
  intros f. unfold ml_score_calc, rule.
  destruct (looks_like_ip f), (suspicious_tld f), (70 <? url_length f)%nat,
    (3 <=? num_hyphens f)%nat, (has_https f);
    eexists; split; vm_compute; reflexivity.
Qed.

(** X5: whenever the adapter falls back (no client, a failed call, an
    unparsable reply), [scan] returns a response whose classifier score is
    50 and whose verdict is never PHISHING: it is SUSPICIOUS when the
    heuristic score is 40 or more and SAFE otherwise. *)
Theorem fallback_never_phishing :
  forall (env : Env) (req : ScanRequest),
    let f := get_url_features env (url req) in
    genai_analysis env req f = fallback_unavailable
    \/ (exists e : Exn, genai_analysis env req f = fallback_error e) ->
    exists r : ScanResponse,
      scan env req = Ok r
      /\ genai_score r = 50%float
      /\ verdict r <> "PHISHING"
      /\ (verdict r = "SUSPICIOUS" <-> (40 <= fst (ml_score_calc f))%Z)
      /\ (verdict r = "SAFE" <-> (fst (ml_score_calc f) < 40)%Z).
Proof.
  intros env req f Hfallback.
  destruct (scan_answers_after_fallback env req Hfallback) as (r & Hscan & Hscore & _).
  exists r. split; [exact Hscan |]. split; [exact Hscore |].
  destruct (scan_ok_inv env req r Hscan)
    as (s & t & _ & _ & Hml & _ & _ & Hverdict & _).
  fold f in Hml. destruct (neutral_verdict f) as (x & Hx & Hv).
  rewrite Hx in Hml. injection Hml as Hml. rewrite Hverdict, Hscore, <- Hml, Hv.
  destruct (Z.leb_spec 40 (fst (ml_score_calc f))).
  - repeat split; try discriminate; auto; lia.
  - repeat split; try discriminate; auto; lia.
Qed.

Lemma fallback_never_phishing_witness :
  genai_analysis (sample_env None) (request "http://example.com/")
    (get_url_features (sample_env None) "http://example.com/") = fallback_unavailable
  /\ exists r : ScanResponse,
       scan (sample_env None) (request "http://example.com/") = Ok r
       /\ genai_score r = 50%float
       /\ verdict r <> "PHISHING"
       /\ (verdict r = "SUSPICIOUS"
           <-> (40 <= fst (ml_score_calc
                             (get_url_features (sample_env None) "http://example.com/")))%Z)
       /\ (verdict r = "SAFE"
           <-> (fst (ml_score_calc
                       (get_url_features (sample_env None) "http://example.com/")) < 40)%Z).
Proof.
  split; [reflexivity |].
  apply (fallback_never_phishing (sample_env None) (request "http://example.com/")).
  left. reflexivity.
Defined.

(** ** Replies without a braced block *)

Lemma count_positive_split :
  forall (c : ascii) (s : string),
    count c s <> 0 -> exists a b : string, s = (a ++ String c b)%string.
Proof.
  intros c. induction s as [| x s IH]; cbn [count]; intros H; [congruence |].
  destruct (Ascii.eqb_spec c x) as [<- | Hne].
  - exists EmptyString, s. reflexivity.
  - destruct (IH H) as (a & b & ->). exists (String x a), b. reflexivity.
Qed.

(** [re.search] finds no block in a text where no opening brace is
    followed by a closing brace. *)
Lemma search_brace_absent :
  forall text : string,
    (forall pre mid post : string, text <> (pre ++ "{" ++ mid ++ "}" ++ post)%string) ->
    Re.search brace_pattern text = None.
Proof.
  induction text as [| c text IH]; intros H; [reflexivity |].
  assert (Htail : Re.search brace_pattern text = None).
  { apply IH. intros pre mid post ->. apply (H (String c pre) mid post). reflexivity. }
  cbn [Re.search]. rewrite Htail.
  destruct (Ascii.eqb_spec "{" c) as [<- | Hc].
  - assert (Hclose : count "}" text = 0).
    { destruct (Nat.eq_dec (count "}" text) 0) as [E | E]; [exact E |].
      destruct (count_positive_split _ _ E) as (mid & post & ->).
      exfalso. apply (H EmptyString mid post). reflexivity. }
    unfold brace_pattern. cbn [Re.run]. rewrite Ascii.eqb_refl.
    rewrite star_any_none; [reflexivity | | exact Hclose].
    intros t Ht. now apply close_brace_absent.
  - rewrite brace_pattern_needs_brace; [reflexivity |].
    now apply Ascii.eqb_neq.
Qed.

(** X6: when the reply is not valid JSON and no opening brace in it is
    followed by a closing brace, there is nothing to recover: the adapter
    returns the fallback whose reason carries the error of the first
    [json.loads]. *)
Theorem unbraced_reply_falls_back :
  forall (env : Env) (req : ScanRequest) (features : UrlFeatures) (client : Client)
         (text : string) (e : Exn),
    groq_client env = Some client ->
    client (make_payload req features) = Ok (Some text) ->
    json_loads env text = Raise e ->
    (forall pre mid post : string, text <> (pre ++ "{" ++ mid ++ "}" ++ post)%string) ->
    genai_analysis env req features = fallback_error e
    /\ dict_get (genai_analysis env req features) "top_reasons" (JList [])
       = Ok (JList [JStr ("GenAI fallback: " ++ exc_text e)]).
Proof.
  intros env req features client text e Hclient Hreply Hfail Hnone.
  assert (H : genai_analysis env req features = fallback_error e).
  { unfold genai_analysis. rewrite Hclient. cbv zeta. rewrite Hreply.
    unfold bind, recover_json. rewrite Hfail, (search_brace_absent text Hnone). reflexivity. }
  rewrite H. split; reflexivity.
Qed.

Lemma no_open_brace_no_block :
  forall text : string,
    count "{" text = 0 ->
    forall pre mid post : string, text <> (pre ++ "{" ++ mid ++ "}" ++ post)%string.
Proof.
  intros text H pre mid post ->. rewrite count_append in H.
  change ("{" ++ mid ++ "}" ++ post)%string with (String "{" (mid ++ "}" ++ post)) in H.
  cbn [count] in H. rewrite Ascii.eqb_refl in H. lia.
Qed.

Lemma unbraced_reply_falls_back_witness :
  let env := sample_env (Some (reply "not json")) in
  let e := {| exc_class := JSONDecodeError;
              exc_text := "Expecting value: line 1 column 1 (char 0)" |} in
  json_loads env "not json" = Raise e
  /\ (forall pre mid post : string, "not json" <> (pre ++ "{" ++ mid ++ "}" ++ post)%string)
  /\ genai_analysis env (request "https://example.com/") example_features = fallback_error e
  /\ dict_get (genai_analysis env (request "https://example.com/") example_features)
       "top_reasons" (JList [])
     = Ok (JList [JStr "GenAI fallback: Expecting value: line 1 column 1 (char 0)"]).
Proof.
  cbv zeta. split; [vm_compute; reflexivity |].
  split; [apply no_open_brace_no_block; reflexivity |].
  apply (unbraced_reply_falls_back (sample_env (Some (reply "not json")))
           (request "https://example.com/") example_features (reply "not json") "not json").
  - reflexivity.
  - reflexivity.
  - vm_compute. reflexivity.
  - apply no_open_brace_no_block. reflexivity.
Defined.

(** ** The served page *)


Lemma replace_escape_hit :
  forall rest : string,
    replace_from escaped_newline newline 0 (String "\" (String "n" rest))
    = String "010" (replace_from escaped_newline newline 0 rest).
Proof.
  intros rest.
  assert (Hp : String.prefix escaped_newline (String "\" (String "n" rest)) = true)
    by (apply prefix_iff_append; exists rest; reflexivity).
  cbn [replace_from]. rewrite Hp. reflexivity.
Qed.

Lemma replace_escape_miss :
  forall (c : ascii) (rest : string),
    String.prefix escaped_newline (String c rest) = false ->
    replace_from escaped_newline newline 0 (String c rest)
    = String c (replace_from escaped_newline newline 0 rest).
Proof.
  intros c rest H. cbn [replace_from]. rewrite H. reflexivity.
Qed.

Lemma escape_split_cons :
  forall (c : ascii) (s a b : string),
    String c s = (a ++ escaped_newline ++ b)%string ->
    (c = "\"%char /\ s = String "n" b)
    \/ (exists a' : string, a = String c a' /\ s = (a' ++ escaped_newline ++ b)%string).
Proof.
  intros c s a b H. destruct a as [| x a']; cbn [append escaped_newline] in H.
  - injection H as -> ->. left. auto.
  - injection H as -> ->. right. exists a'. auto.
Qed.

(** What [replace] leaves has no backslash followed by [n], and begins
    with [n] only where the text did. *)
Lemma replace_escape_clean :
  forall (n : nat) (s : string),
    String.length s <= n ->
    (forall a b : string,
        replace_from escaped_newline newline 0 s <> (a ++ escaped_newline ++ b)%string)
    /\ (forall t : string,
           replace_from escaped_newline newline 0 s = String "n" t ->
           exists t' : string, s = String "n" t').
Proof.
  induction n as [| n IH]; intros s Hlen.
  - destruct s; [| cbn [String.length] in Hlen; lia].
    split; [intros [| x a] b H; discriminate H | intros t H; discriminate H].
  - destruct s as [| c rest].
    + split; [intros [| x a] b H; discriminate H | intros t H; discriminate H].
    + cbn [String.length] in Hlen.
      destruct (String.prefix escaped_newline (String c rest)) eqn:Hp.
      * apply prefix_iff_append in Hp. destruct Hp as [rest' Hp].
        cbn [append escaped_newline] in Hp. injection Hp as -> ->.
        cbn [String.length] in Hlen.
        destruct (IH rest' ltac:(lia)) as [Hocc _].
        rewrite replace_escape_hit. split.
        -- intros a b H. apply escape_split_cons in H.
           destruct H as [[H _] | (a' & _ & H)]; [discriminate H | exact (Hocc _ _ H)].
        -- intros t H. discriminate H.
      * destruct (IH rest ltac:(lia)) as [Hocc Hstart].
        rewrite (replace_escape_miss _ _ Hp). split.
        -- intros a b H. apply escape_split_cons in H.
           destruct H as [[-> H] | (a' & _ & H)]; [| exact (Hocc _ _ H)].
           destruct (Hstart _ H) as [t' ->].
           rewrite (proj2 (prefix_iff_append _ _)) in Hp; [discriminate Hp |].
           exists t'. reflexivity.
        -- intros t H. injection H as -> _. exists rest. reflexivity.
Qed.


(** X7: whatever [index.html] holds, the page [serve_ui] returns has no
    backslash followed by [n] left in it; the status is 500 exactly when
    the file does not exist and 200 exactly when it could be read. *)
Theorem served_page_has_no_escaped_newline :
  forall (index_html : option (Result Exn string)) (r : HTMLResponse),
    serve_ui index_html = Ok r ->
    (forall a b : string, content r <> (a ++ escaped_newline ++ b)%string)
    /\ (status_code r = 500 <-> index_html = None)
    /\ (status_code r = 200 <-> exists text : string, index_html = Some (Ok text)).
Proof.
  intros index_html r H. unfold serve_ui in H.
  destruct index_html as [[text | e] |]; cbn [bind] in H; [| discriminate H |].
  - injection H as <-. cbn [content status_code]. split.
    + intros a b. unfold replace, escaped_newline at 1.
      exact (proj1 (replace_escape_clean _ _ (le_n _)) a b).
    + split; [split; intros H; discriminate H |].
      split; [intros _; exists text; reflexivity | reflexivity].
  - injection H as <-. cbn [content status_code]. split.
    + intros a b.
      change "<h3>index.html not found in api/static</h3>"
        with (replace_from escaped_newline newline 0
                "<h3>index.html not found in api/static</h3>").
      exact (proj1 (replace_escape_clean _ _ (le_n _)) a b).
    + split; [split; reflexivity |].
      split; [intros H; discriminate H | intros [t H]; discriminate H].
Qed.

Lemma served_page_has_no_escaped_newline_witness :
  serve_ui (Some (Ok "'<p>\n</p>'"))
  = Ok {| content := ("<p>" ++ newline ++ "</p>")%string; status_code := 200 |}
  /\ (forall a b : string,
         ("<p>" ++ newline ++ "</p>")%string <> (a ++ escaped_newline ++ b)%string)
  /\ (200 = 500 <-> Some (Ok (E := Exn) "'<p>\n</p>'") = None)
  /\ (200 = 200 <-> exists text : string, Some (Ok (E := Exn) "'<p>\n</p>'") = Some (Ok text)).
Proof.
  split; [vm_compute; reflexivity |].
  apply (served_page_has_no_escaped_newline (Some (Ok "'<p>\n</p>'"))
           {| content := ("<p>" ++ newline ++ "</p>")%string; status_code := 200 |}).
  vm_compute. reflexivity.
Defined.

Lemma substring_last :
  forall (a : string) (d : ascii),
    substring (String.length a) 1 (a ++ String d EmptyString) = String d EmptyString.
Proof.
  intros a d. induction a as [| x a IH]; [reflexivity |].
  cbn [append String.length substring]. exact IH.
Qed.

Lemma endswith_last :
  forall (c d : ascii) (a : string),
    endswith (String c EmptyString) (a ++ String d EmptyString) = Ascii.eqb d c.
Proof.
  intros c d a. unfold endswith. rewrite length_append. cbn [String.length].
  replace (String.length a + 1 - 1) with (String.length a) by lia.
  rewrite substring_last.
  replace (1 <=? String.length a + 1)%nat with true by (symmetry; apply Nat.leb_le; lia).
  cbn [andb String.eqb]. destruct (Ascii.eqb d c); reflexivity.
Qed.

Lemma substring_whole_prefix :
  forall a b : string, substring 0 (String.length a) (a ++ b) = a.
Proof.
  intros a b. induction a as [| x a IH]; cbn [append String.length substring].
  - destruct b; reflexivity.
  - now rewrite IH.
Qed.

Lemma strip_ends_wrapped :
  forall (c d : ascii) (body : string),
    strip_ends (String c (body ++ String d EmptyString)) = body.
Proof.
  intros c d body. unfold strip_ends. cbn [String.length]. rewrite length_append.
  cbn [String.length].
  replace (S (String.length body + 1) - 2) with (String.length body) by lia.
  cbn [substring]. apply substring_whole_prefix.
Qed.

Lemma prefix_single :
  forall (q c : ascii) (rest : string),
    String.prefix (String q EmptyString) (String c rest) = Ascii.eqb q c.
Proof.
  intros q c rest. cbn [String.prefix].
  destruct (ascii_dec q c) as [-> | Hne].
  - rewrite Ascii.eqb_refl. destruct rest; reflexivity.
  - symmetry. now apply Ascii.eqb_neq.
Qed.

Lemma serve_ui_wrapped :
  forall (c d : ascii) (body : string),
    serve_ui (Some (Ok (String c (body ++ String d EmptyString))))
    = Ok {| content :=
              replace escaped_newline newline
                (if (Ascii.eqb "'" c && Ascii.eqb d "'")
                    || (Ascii.eqb "034" c && Ascii.eqb d "034")
                 then body
                 else String c (body ++ String d EmptyString));
            status_code := 200 |}.
Proof.
  intros c d body. unfold serve_ui, double_quote. cbn [bind].
  rewrite !prefix_single.
  change (String c (body ++ String d EmptyString))
    with (String c body ++ String d EmptyString)%string at 1 2.
  rewrite !endswith_last, strip_ends_wrapped. reflexivity.
Qed.

(** X8: a page saved as a quoted string, in single or in double quotes,
    is served without the two quotes; quotes that do not match are kept;
    a file made of one quote character gives an empty page. *)
Theorem quoted_page_is_unwrapped :
  forall body : string,
    serve_ui (Some (Ok ("'" ++ body ++ "'")%string))
    = Ok {| content := replace escaped_newline newline body; status_code := 200 |}
    /\ serve_ui (Some (Ok (double_quote ++ body ++ double_quote)%string))
       = Ok {| content := replace escaped_newline newline body; status_code := 200 |}
    /\ serve_ui (Some (Ok ("'" ++ body ++ double_quote)%string))
       = Ok {| content := replace escaped_newline newline ("'" ++ body ++ double_quote);
               status_code := 200 |}
    /\ serve_ui (Some (Ok (double_quote ++ body ++ "'")%string))
       = Ok {| content := replace escaped_newline newline (double_quote ++ body ++ "'");
               status_code := 200 |}
    /\ serve_ui (Some (Ok "'")) = Ok {| content := EmptyString; status_code := 200 |}
    /\ serve_ui (Some (Ok double_quote)) = Ok {| content := EmptyString; status_code := 200 |}.
Proof.
  intros body.
  split; [exact (serve_ui_wrapped "'" "'" body) |].
  split; [exact (serve_ui_wrapped "034" "034" body) |].
  split; [exact (serve_ui_wrapped "'" "034" body) |].
  split; [exact (serve_ui_wrapped "034" "'" body) |].
  split; vm_compute; reflexivity.
Qed.



(** ** Start-up and [/health] *)







Lemma map_JStr_inj :
  forall a b : list string, map JStr a = map JStr b -> a = b.
Proof.
  induction a as [| x a IH]; intros [| y b] H; try discriminate H; [reflexivity |].
  cbn [map] in H. injection H as -> H. f_equal. exact (IH _ H).
Qed.

(** X11: while [/health] reports [groq_enabled] false, every [/scan] is
    answered: the summary is the not-configured fallback, the classifier
    score is 50, and the reasons are the heuristic ones followed by the
    fallback's single reason. *)
Theorem scan_without_client :
  forall (cfg : Config) (env : Env) (req : ScanRequest),
    groq_client env = configured_client cfg ->
    groq_enabled (health cfg) = false ->
    exists r : ScanResponse,
      scan env req = Ok r
      /\ genai_summary r = fallback_unavailable
      /\ genai_score r = 50%float
      /\ reasons r
         = snd (ml_score_calc (get_url_features env (url req)))
           ++ ["GenAI not configured (missing GROQ_API_KEY or Groq SDK)."].
Proof.
  intros cfg env req Henv Hoff.
  assert (Hnone : groq_client env = None).
  { rewrite Henv. unfold health in Hoff. cbn [groq_enabled] in Hoff.
    destruct (configured_client cfg); [discriminate Hoff | reflexivity]. }
  assert (Hgenai : genai_analysis env req (get_url_features env (url req))
                   = fallback_unavailable).
  { unfold genai_analysis. rewrite Hnone. reflexivity. }
  destruct (scan_answers_after_fallback env req (or_introl Hgenai))
    as (r & Hscan & Hscore & Hsummary).
  exists r. split; [exact Hscan |]. rewrite Hgenai in Hsummary.
  split; [exact Hsummary |]. split; [exact Hscore |].
  destruct (scan_ok_inv env req r Hscan) as (s & top & _ & _ & _ & Htop & Hreasons & _).
  rewrite Hgenai in Htop. injection Htop as <-.
  destruct (extracted_score_bound_aux env (url req)) as [_ Hlen].
  rewrite firstn_all2 in Hreasons by (rewrite length_app, length_map; cbn [List.length]; lia).
  apply map_JStr_inj. rewrite Hreasons, map_app. reflexivity.
Qed.

Lemma scan_without_client_witness :
  groq_client (sample_env None) = configured_client (startup None None None)
  /\ groq_enabled (health (startup None None None)) = false
  /\ exists r : ScanResponse,
       scan (sample_env None) (request "http://example.com/") = Ok r
       /\ genai_summary r = fallback_unavailable
       /\ genai_score r = 50%float
       /\ reasons r
          = snd (ml_score_calc (get_url_features (sample_env None) "http://example.com/"))
            ++ ["GenAI not configured (missing GROQ_API_KEY or Groq SDK)."].
Proof.
  split; [reflexivity |]. split; [reflexivity |].
  apply (scan_without_client (startup None None None) (sample_env None)
           (request "http://example.com/")); reflexivity.
Defined.

(** X12: [scan] returns a response exactly when the adapter's result is a
    dict whose [genai_score] (50 when absent) converts to a float and whose
    [top_reasons] (empty when absent) is a list, the entries of it that fit
    under the cap of six being strings; entries beyond the cap are not
    looked at. *)
Theorem scan_succeeds_iff :
  forall (env : Env) (req : ScanRequest),
    let f := get_url_features env (url req) in
    let genai := genai_analysis env req f in
    let ml_reasons := snd (ml_score_calc f) in
    (exists r : ScanResponse, scan env req = Ok r)
    <-> exists (score : JSON) (g : float) (top : list JSON) (kept : list string),
          dict_get genai "genai_score" (JInt 50) = Ok score
          /\ py_float env score = Ok g
          /\ dict_get genai "top_reasons" (JList []) = Ok (JList top)
          /\ firstn (6 - List.length ml_reasons) top = map JStr kept.
Proof.
  intros env req f genai ml_reasons.
  assert (Hlen : List.length ml_reasons <= 4).
  { destruct (extracted_score_bound_aux env (url req)) as [_ Hl]. exact Hl. }
  assert (Hcut : forall top : list JSON,
             firstn 6 (map JStr ml_reasons ++ top)
             = map JStr ml_reasons ++ firstn (6 - List.length ml_reasons) top).
  { intros top. rewrite firstn_app, length_map.
    rewrite (firstn_all2 (map JStr ml_reasons)) by (rewrite length_map; lia). reflexivity. }
  split.
  - intros [r H].
    destruct (scan_ok_inv env req r H) as (score & top & Hs & Hg & _ & Htop & Hreasons & _).
    fold f in Hs, Htop, Hreasons. fold genai in Hs, Htop. fold ml_reasons in Hreasons.
    rewrite Hcut in Hreasons.
    destruct (map_JStr_split _ _ _ Hreasons) as (kept & _ & Hk).
    exists score, (genai_score r), top, kept. auto.
  - intros (score & g & top & kept & Hs & Hg & Htop & Hk).
    unfold scan. fold f. fold genai.
    destruct (ml_score_converts f) as [ml Hml].
    subst ml_reasons. destruct (ml_score_calc f) as [ml_int reasons0].
    cbn [fst snd] in *. rewrite Hs. cbn [bind]. rewrite Hg. cbn [bind].
    rewrite Hml. cbn [bind]. rewrite Htop. cbn [bind list_concat].
    rewrite Hcut, Hk, <- map_app, validate_str_list_strs. cbn [bind].
    eexists. reflexivity.
Qed.

(** X13: the heuristic score and its reasons go together: every reason
    stands for at least 10 and at most 35 points, so the score is 0 exactly
    when no reason is given. *)
Theorem score_matches_reasons :
  forall f : UrlFeatures,
    let score := fst (ml_score_calc f) in
    let n := Z.of_nat (List.length (snd (ml_score_calc f))) in
    (10 * n <= score <= 35 * n)%Z
    /\ (score = 0%Z <-> snd (ml_score_calc f) = []).
Proof.
  intros f. unfold ml_score_calc, rule.
  destruct (looks_like_ip f), (suspicious_tld f), (70 <? url_length f)%nat,
    (3 <=? num_hyphens f)%nat, (has_https f);
    cbn; (split; [lia | split; intros H; (discriminate H || reflexivity)]).
Qed.
